(** * backupDb-localhostToGdrive: the backup and restore pipelines of main.js

    A shallow embedding of [src/main.js]: a command-line tool that dumps a
    MySQL database, zips the dump, uploads the archive to Google Drive, and
    restores the database from such an archive.

    The program is a sequence of calls to external collaborators (the
    shell, [fs], [archiver], [unzipper], the Drive client, [inquirer],
    [console], [process]).  The embedding keeps the control flow of the
    source (promises awaited one after the other, [try]/[catch]/[finally],
    early [return], [process.exit]) in a state-and-exception monad, records
    every call to a collaborator in a trace, and takes the answers of the
    collaborators from an [Oracle] record over which the theorems
    quantify.

    Three things that Node does behind the source are part of the model.
    A stream of [fs] that emits [error] while no listener is attached, and
    the source attaches none to any of its four streams, ends the process
    with an uncaught exception: no [catch] and no [finally] runs.  The
    file of a write stream is created when the open completes, which is
    after [fs.createWriteStream] has returned.  Callbacks still pending
    when the menu returns run before the process ends. *)

From Stdlib Require Import ZArith String Ascii List.
From stdpp Require Import base strings gmap list pretty.

#[local] Set Warnings "-clear-no-such-hyp".

Local Open Scope string_scope.
Local Open Scope list_scope.
Local Open Scope Z_scope.

(** ** JavaScript strings *)

Module Js.

(** [Boolean(s)] for a string: every string but the empty one is truthy. *)
Definition truthy (s : string) : bool :=
  match s with
  | EmptyString => false
  | String _ _ => true
  end.

(** [!v] for the value of [process.env[name]], which is a string or
    [undefined]. *)
Definition falsy_env (v : option string) : bool :=
  match v with
  | None => true
  | Some s => negb (truthy s)
  end.

(** [s.slice(n)]. *)
Fixpoint drop (n : nat) (s : string) : string :=
  match n, s with
  | O, _ => s
  | S _, EmptyString => EmptyString
  | S n', String _ s' => drop n' s'
  end.

(** [s.replace(pat, rep)] with a string pattern: only the first
    occurrence of [pat], scanning from the left, is replaced. *)
Fixpoint replace (pat rep s : string) : string :=
  if String.prefix pat s then rep +:+ drop (String.length pat) s
  else match s with
       | EmptyString => EmptyString
       | String c s' => String c (replace pat rep s')
       end.

(** [s.replace(/[:.]/g, '-')]: every colon and every dot becomes a dash. *)
Fixpoint replace_colon_dot (s : string) : string :=
  match s with
  | EmptyString => EmptyString
  | String c s' =>
      String (if (Ascii.eqb c ":" || Ascii.eqb c ".")%bool then "-"%char else c)
             (replace_colon_dot s')
  end.

(** [s.includes(pat)]. *)
Fixpoint includes (pat s : string) : bool :=
  if String.prefix pat s then true
  else match s with
       | EmptyString => false
       | String _ s' => includes pat s'
       end.

(** The value a promise resolves with.  [resolve()] without an argument
    resolves with [undefined]. *)
Inductive Value :=
| Undefined
| Number (n : Z)
| Str (s : string).

(** A thrown [Error] (or a rejection); the program reads only its
    [message]. *)
Record Error := mkError { message : string }.

End Js.

(** ** Configuration: lines 11-42 *)

Record Config := mkConfig {
  DB_HOST : string;
  DB_USER : string;
  DB_PASSWORD : string;
  DB_NAME : string;
  GDRIVE_CLIENT_EMAIL : string;
  GDRIVE_PRIVATE_KEY : string;
  GDRIVE_FOLDER_ID : string
}.

Definition requiredEnvVars : list string :=
  ["DB_HOST"; "DB_USER"; "DB_NAME";
   "GDRIVE_CLIENT_EMAIL"; "GDRIVE_PRIVATE_KEY"; "GDRIVE_FOLDER_ID"].

(** The loop of lines 20-24: the first required variable that is unset or
    empty aborts the start with an error naming it. *)
Fixpoint checkRequired (vars : list string) (penv : gmap string string) : option Js.Error :=
  match vars with
  | [] => None
  | envVar :: rest =>
      if Js.falsy_env (penv !! envVar)
      then Some (Js.mkError ("Missing required environment variable: " +:+ envVar))
      else checkRequired rest penv
  end.

Definition missingPasswordMessage : string :=
  "Missing required environment variable: DB_PASSWORD. If you have no password, set it to DB_PASSWORD= in your .env file.".

Definition getenv (penv : gmap string string) (name : string) : string :=
  default "" (penv !! name).

(** Lines 20-33: validation of [process.env], then the destructuring that
    binds the configuration constants.  [inl] is the error thrown at
    module load. *)
Definition loadConfig (penv : gmap string string) : Js.Error + Config :=
  match checkRequired requiredEnvVars penv with
  | Some e => inl e
  | None =>
      match penv !! "DB_PASSWORD" with
      | None => inl (Js.mkError missingPasswordMessage)
      | Some pw =>
          inr {| DB_HOST := getenv penv "DB_HOST";
                 DB_USER := getenv penv "DB_USER";
                 DB_PASSWORD := pw;
                 DB_NAME := getenv penv "DB_NAME";
                 GDRIVE_CLIENT_EMAIL := getenv penv "GDRIVE_CLIENT_EMAIL";
                 GDRIVE_PRIVATE_KEY := getenv penv "GDRIVE_PRIVATE_KEY";
                 GDRIVE_FOLDER_ID := getenv penv "GDRIVE_FOLDER_ID" |}
      end
  end.

(** Line 42. *)
Definition passwordArg (cfg : Config) : string :=
  if Js.truthy (DB_PASSWORD cfg) then "-p" +:+ DB_PASSWORD cfg else "".

(** The command lines of [dumpDatabase] (line 51) and [importDatabase]
    (line 162). *)
Definition dumpCommand (cfg : Config) (dumpFile : string) : string :=
  "mysqldump -h " +:+ DB_HOST cfg +:+ " -u " +:+ DB_USER cfg +:+ " " +:+
  passwordArg cfg +:+ " " +:+ DB_NAME cfg +:+ " > " +:+ dumpFile.

Definition importCommand (cfg : Config) (sqlFile : string) : string :=
  "mysql -h " +:+ DB_HOST cfg +:+ " -u " +:+ DB_USER cfg +:+ " " +:+
  passwordArg cfg +:+ " " +:+ DB_NAME cfg +:+ " < " +:+ sqlFile.

(** ** What the program says and does *)

(** A record of a Drive file as the listing returns it. *)
Record DriveFile := mkDriveFile {
  df_id : string;
  df_name : string;
  df_createdTime : string
}.

(** The messages of the program, one constructor per [console.log] or
    [console.error] call of the source. *)
Inductive LogMsg :=
| MsgCreatingDump (db : string)
| MsgDumpFailed (stderr : string)
| MsgDumpCreated
| MsgCompressing (dumpFile : string)
| MsgCompressed (zipFile : string) (bytes : Z)
| MsgCompressionFailed (err : string)
| MsgUploading (zipFile : string)
| MsgUploadSuccessful (fileId name link : string)
| MsgListing
| MsgDownloading (fileName : string)
| MsgDownloadComplete
| MsgDownloadError (err : string)
| MsgUnzipping (zipFile : string)
| MsgUnzipped (sqlFile : string)
| MsgUnzipFailed (err : string)
| MsgRestoring (sqlFile : string)
| MsgImportFailed (stderr : string)
| MsgImported
| MsgCleaningUp
| MsgDeleted (file : string)
| MsgDeleteFailed (file err : string)
| MsgBackupCompleted
| MsgBackupFailed (err : string)
| MsgNoBackups
| MsgRestoreCancelled
| MsgRestoreCompleted
| MsgRestoreFailed (err : string)
| MsgBannerRule
| MsgBannerTitle
| MsgGoodbye
| MsgUnexpected (err : string).

Inductive Action := ActBackup | ActRestore | ActExit.

(** The arguments of the [console.log] or [console.error] call behind each
    message.  An [Error] argument is listed by its message and the object
    logged after an upload by its three fields. *)
Definition nl : string := String "010"%char "".

Definition render (m : LogMsg) : list string :=
  match m with
  | MsgCreatingDump db => ["📦 Creating database dump for " +:+ db +:+ "..."]
  | MsgDumpFailed stderr => ["❌ Database dump failed:"; stderr]
  | MsgDumpCreated => ["✅ Database dump created successfully."]
  | MsgCompressing dumpFile => ["🗜 Compressing " +:+ dumpFile +:+ "..."]
  | MsgCompressed zipFile bytes =>
      ["✅ File compressed: " +:+ zipFile +:+ " (" +:+ pretty bytes +:+ " bytes)"]
  | MsgCompressionFailed err => ["❌ Compression failed:"; err]
  | MsgUploading zipFile => ["☁️ Uploading " +:+ zipFile +:+ " to Google Drive..."]
  | MsgUploadSuccessful fileId name link => ["✅ Upload successful:"; fileId; name; link]
  | MsgListing => ["🔍 Listing backups from Google Drive..."]
  | MsgDownloading fileName => ["🔽 Downloading " +:+ fileName +:+ "..."]
  | MsgDownloadComplete => ["✅ Download complete."]
  | MsgDownloadError err => ["❌ Error during download."; err]
  | MsgUnzipping zipFile => ["🗜 Unzipping " +:+ zipFile +:+ "..."]
  | MsgUnzipped sqlFile => ["✅ Unzipped to " +:+ sqlFile +:+ "."]
  | MsgUnzipFailed err => ["❌ Unzip failed."; err]
  | MsgRestoring sqlFile => ["🔧 Restoring database from " +:+ sqlFile +:+ "..."]
  | MsgImportFailed stderr => ["❌ Database restore failed:"; stderr]
  | MsgImported => ["✅ Database restored successfully."]
  | MsgCleaningUp => ["🧹 Cleaning up temporary files..."]
  | MsgDeleted file => ["   - Deleted: " +:+ file]
  | MsgDeleteFailed file err => ["   - Failed to delete " +:+ file +:+ ":"; err]
  | MsgBackupCompleted => [nl +:+ "🎉 Backup completed successfully!"]
  | MsgBackupFailed err => [nl +:+ "🔥 Backup failed:"; err]
  | MsgNoBackups => ["🤷 No backup files found in the specified Google Drive folder."]
  | MsgRestoreCancelled => ["🛑 Restore cancelled."]
  | MsgRestoreCompleted => [nl +:+ "🎉 Restore completed successfully!"]
  | MsgRestoreFailed err => [nl +:+ "🔥 Restore failed:"; err]
  | MsgBannerRule => ["===================================="]
  | MsgBannerTitle => ["   Database Backup & Restore Tool   "]
  | MsgGoodbye => ["👋 Goodbye!"]
  | MsgUnexpected err => ["An unexpected error occurred:"; err]
  end.

(** One event per call to a collaborator. *)
Inductive Event :=
| EvLog (m : LogMsg)
| EvError (m : LogMsg)
| EvClear
| EvExec (cmd : string)
| EvCreateWriteStream (path : string)
| EvCreateReadStream (path : string)
| EvArchive (source name : string)
| EvDriveCreate (name : string) (parents : list string) (mimeType : string)
| EvDriveList (q orderBy : string) (pageSize : Z)
| EvDriveGet (fileId : string)
| EvUnzipExtract (zipFile dir : string)
| EvPromptMenu (choices : list Action)
| EvPromptList (choices : list DriveFile)
| EvPromptConfirm (fileName db : string) (dflt : bool)
| EvExistsSync (path : string)
| EvUnlinkSync (path : string)
| EvExit (code : Z)
| EvDotenvConfig.

(** ** The collaborators *)

(** The callback arguments of [child_process.exec]: [ex_error] is the
    message of the [error] argument ([None] for [null]); [ex_written] are
    the files the shell and the tool wrote (the target of [>]). *)
Record ExecResult := mkExecResult {
  ex_error : option string;
  ex_stdout : string;
  ex_stderr : string;
  ex_written : list string
}.

(** The output stream closes, with [archive.pointer()] bytes written, or
    the archive emits an error, or the output stream itself emits one: the
    open failed ([opened] is [false]) or a write did. *)
Inductive ArchiveResult :=
| ArchiveClosed (pointer : Z)
| ArchiveError (err : string)
| OutputError (err : string) (opened : bool).

(** [drive.files.create] resolves or rejects, or the read stream given as
    its body emits an error. *)
Inductive CreateResult :=
| Created (fileId name webViewLink : string)
| CreateRejected (err : string)
| BodyStreamError (err : string).

Inductive ListResult :=
| Listed (files : list DriveFile)
| ListRejected (err : string).

(** [drive.files.get] rejects, or gives a stream that ends or fails, or
    the write stream the response is piped into emits an error: its open
    failed ([opened] is [false]) or a write did. *)
Inductive GetResult :=
| GetRejected (err : string)
| StreamError (err : string)
| StreamEnd
| DestStreamError (err : string) (opened : bool).

(** What can go wrong while an archive is extracted: the extraction stream
    emits an error, or the read stream on the archive does. *)
Inductive UnzipFailure :=
| ExtractFailed (err : string)
| ReadFailed (err : string).

(** [unzipper.Extract]: the files written under the target directory, and
    the failure if there is one (possibly after some writes). *)
Record UnzipResult := mkUnzipResult {
  uz_error : option UnzipFailure;
  uz_written : list string
}.

(** The [list] prompt of the menu resolves with the action chosen, or
    rejects. *)
Inductive MenuAnswer :=
| Chosen (action : Action)
| MenuRejected (err : string).

Record Oracle := mkOracle {
  date_toISOString : string;
  child_exec : string -> gset string -> ExecResult;
  archiver_zip : string -> string -> gset string -> ArchiveResult;
  drive_create : string -> CreateResult;
  drive_list : ListResult;
  drive_get : string -> GetResult;
  unzipper_extract : string -> gset string -> UnzipResult;
  fs_unlink_error : string -> option string;
  answer_menu : MenuAnswer;
  answer_list : list DriveFile -> nat;
  answer_confirm : string -> bool;
  (** the variables [dotenv] parses from [.env]; none without the file *)
  dotenv_parsed : gmap string string;
  (** whether the open of the write stream on a path is still pending when
      the request of the download is rejected *)
  fs_open_late : string -> bool
}.

(** ** The state of a run *)

(** What is still to happen when the running function has returned: the
    creation of a file whose open is pending, the message of a callback. *)
Inductive Late :=
| LateCreate (path : string)
| LateLog (m : LogMsg).

Record State := mkState {
  fs : gset string;
  trace : list Event;
  exitCode : option Z;
  locals : gmap string string;
  deferred : list Late
}.

Definition initial (files : gset string) : State :=
  {| fs := files; trace := []; exitCode := None; locals := ∅; deferred := [] |}.

(** How a computation ends: it returns, it throws, the process exits
    through [process.exit], or the process is killed by an [error] event
    that no listener handles. *)
Inductive Outcome (A : Type) :=
| Returned (a : A)
| Thrown (e : Js.Error)
| Exited (code : Z)
| Crashed (e : Js.Error).
Arguments Returned {A} a.
Arguments Thrown {A} e.
Arguments Exited {A} code.
Arguments Crashed {A} e.

Definition M (A : Type) : Type := State -> Outcome A * State.

Definition ret {A} (a : A) : M A := fun st => (Returned a, st).

Definition bind {A B} (m : M A) (k : A -> M B) : M B := fun st =>
  match m st with
  | (Returned a, st') => k a st'
  | (Thrown e, st') => (Thrown e, st')
  | (Exited c, st') => (Exited c, st')
  | (Crashed e, st') => (Crashed e, st')
  end.

Declare Scope js_scope.
Delimit Scope js_scope with js.
Notation "x <- m ;; k" := (bind m (fun x => k))
  (at level 100, m at next level, right associativity) : js_scope.
Notation "m ;; k" := (bind m (fun _ => k))
  (at level 100, right associativity) : js_scope.
Local Open Scope js_scope.

Definition throw {A} (msg : string) : M A := fun st => (Thrown (Js.mkError msg), st).

(** An [error] event on a stream without a listener for it. *)
Definition crash {A} (msg : string) : M A := fun st => (Crashed (Js.mkError msg), st).

(** [try { body } catch (error) { handler }]; neither [process.exit] nor
    the death of the process can be caught. *)
Definition try_catch {A} (body : M A) (handler : Js.Error -> M A) : M A := fun st =>
  match body st with
  | (Thrown e, st') => handler e st'
  | r => r
  end.

(** [try { body } finally { fin }]: [fin] runs after [body] returned or
    threw, then the outcome of [body] stands unless [fin] itself leaves
    abnormally.  It does not run when the process ends in [body]. *)
Definition try_finally {A} (body : M A) (fin : M unit) : M A := fun st =>
  match body st with
  | (Exited c, st') => (Exited c, st')
  | (Crashed e, st') => (Crashed e, st')
  | (r, st') =>
      match fin st' with
      | (Returned _, st'') => (r, st'')
      | (Thrown e, st'') => (Thrown e, st'')
      | (Exited c, st'') => (Exited c, st'')
      | (Crashed e, st'') => (Crashed e, st'')
      end
  end.

Definition emit (e : Event) : M unit := fun st =>
  (Returned tt, {| fs := fs st; trace := trace st ++ [e];
                   exitCode := exitCode st; locals := locals st;
                   deferred := deferred st |}).

Definition console_log (m : LogMsg) : M unit := emit (EvLog m).
Definition console_error (m : LogMsg) : M unit := emit (EvError m).

Definition write_files (paths : list string) : M unit := fun st =>
  (Returned tt, {| fs := fs st ∪ list_to_set paths; trace := trace st;
                   exitCode := exitCode st; locals := locals st;
                   deferred := deferred st |}).

Definition remove_file (path : string) : M unit := fun st =>
  (Returned tt, {| fs := fs st ∖ {[path]}; trace := trace st;
                   exitCode := exitCode st; locals := locals st;
                   deferred := deferred st |}).

Definition read_fs : M (gset string) := fun st => (Returned (fs st), st).

(** [process.exitCode = c]. *)
Definition set_exitCode (c : Z) : M unit := fun st =>
  (Returned tt, {| fs := fs st; trace := trace st;
                   exitCode := Some c; locals := locals st;
                   deferred := deferred st |}).

(** [process.exit(c)]: the process ends at once. *)
Definition process_exit {A} (c : Z) : M A := fun st =>
  (Exited c, {| fs := fs st; trace := trace st ++ [EvExit c];
                exitCode := exitCode st; locals := locals st;
                   deferred := deferred st |}).

(** Assignment to, and reading of, a [let] variable of the running
    function. *)
Definition assign (x v : string) : M unit := fun st =>
  (Returned tt, {| fs := fs st; trace := trace st;
                   exitCode := exitCode st; locals := <[x := v]> (locals st);
                   deferred := deferred st |}).

Definition read_var (x : string) : M string := fun st =>
  (Returned (default "" (locals st !! x)), st).

(** A callback is left pending. *)
Definition defer (l : Late) : M unit := fun st =>
  (Returned tt, {| fs := fs st; trace := trace st;
                   exitCode := exitCode st; locals := locals st;
                   deferred := deferred st ++ [l] |}).

(** [list.forEach(f)]. *)
Fixpoint forEach {A} (f : A -> M unit) (l : list A) : M unit :=
  match l with
  | [] => ret tt
  | x :: rest => f x ;; forEach f rest
  end.

(** The open of the write stream on [path] has completed. *)
Definition stream_opened (path : string) : M unit := write_files [path].

Definition run_late (l : Late) : M unit :=
  match l with
  | LateCreate path => stream_opened path
  | LateLog m => console_log m
  end.

(** The callbacks left pending run, in the order they were left. *)
Definition drain : M unit := fun st =>
  forEach run_late (deferred st)
    {| fs := fs st; trace := trace st; exitCode := exitCode st;
       locals := locals st; deferred := [] |}.

(** The exit status of the process: that of [process.exit], 1 after an
    uncaught exception (a throw that nothing catches, an [error] event
    that nothing handles), else [process.exitCode], which defaults to 0. *)
Definition exit_status {A} (r : Outcome A * State) : Z :=
  match r with
  | (Exited c, _) => c
  | (Thrown _, _) => 1
  | (Crashed _, _) => 1
  | (Returned _, st) => default 0 (exitCode st)
  end.

(** ** The program *)

Section Program.

Variable O : Oracle.
Variable cfg : Config.

(** *** Calls to the collaborators *)

(** [exec(cmd, callback)], awaited: the shell runs [cmd]. *)
Definition exec (cmd : string) : M ExecResult :=
  emit (EvExec cmd) ;;
  files <- read_fs ;;
  let r := child_exec O cmd files in
  write_files (ex_written r) ;;
  ret r.

(** [fs.createWriteStream(path)]: the stream is returned at once and the
    open of the file is requested; the file is there once the open has
    completed ([stream_opened]), which the operations below place at the
    event that shows it: data went through the stream, or the stream
    emitted an error after it was opened. *)
Definition createWriteStream (path : string) : M unit :=
  emit (EvCreateWriteStream path).

Definition createReadStream (path : string) : M unit :=
  emit (EvCreateReadStream path).

(** [archive.pipe(output); archive.file(source, {name}); archive.finalize()],
    up to the [close] event of the output, the [error] event of the
    archive, or the [error] event of the output.  The archiver writes
    through the output stream on [dest], whose file is there unless its
    open failed. *)
Definition archive_file (source name dest : string) : M ArchiveResult :=
  emit (EvArchive source name) ;;
  files <- read_fs ;;
  let r := archiver_zip O source dest (files ∪ list_to_set [dest]) in
  match r with
  | OutputError _ false => ret tt
  | _ => stream_opened dest
  end ;;
  ret r.

Definition drive_files_create (name : string) (parents : list string)
    (mimeType : string) : M CreateResult :=
  emit (EvDriveCreate name parents mimeType) ;;
  ret (drive_create O name).

Definition drive_files_list (q orderBy : string) (pageSize : Z) : M ListResult :=
  emit (EvDriveList q orderBy pageSize) ;;
  ret (drive_list O).

(** [await drive.files.get(...)] and the piping of the response into the
    write stream on [dest], up to the event that settles the promise of
    the download or ends the process.  When a response came, the open of
    [dest] has completed; when the request is rejected it may still be
    pending, and then the file is created later. *)
Definition drive_files_get (fileId dest : string) : M GetResult :=
  emit (EvDriveGet fileId) ;;
  let r := drive_get O fileId in
  match r with
  | GetRejected _ =>
      if fs_open_late O dest then defer (LateCreate dest) else stream_opened dest
  | StreamError _ | StreamEnd => stream_opened dest
  | DestStreamError _ opened => if opened then stream_opened dest else ret tt
  end ;;
  ret r.

(** [fs.createReadStream(zipFile).pipe(unzipper.Extract({ path: dir }))]. *)
Definition unzip_extract (zipFile dir : string) : M UnzipResult :=
  createReadStream zipFile ;;
  emit (EvUnzipExtract zipFile dir) ;;
  files <- read_fs ;;
  let r := unzipper_extract O zipFile files in
  write_files (uz_written r) ;;
  ret r.

Definition existsSync (path : string) : M bool :=
  emit (EvExistsSync path) ;;
  files <- read_fs ;;
  ret (bool_decide (path ∈ files)).

(** [fs.unlinkSync(path)]: removes the file, or throws. *)
Definition unlinkSync (path : string) : M unit :=
  emit (EvUnlinkSync path) ;;
  match fs_unlink_error O path with
  | Some err => throw err
  | None => remove_file path
  end.

(** The [list] prompt of inquirer returns the value of one of its
    choices; [first] is the one highlighted when the prompt opens.  The
    labels shown, made of the name and the local creation time of each
    record, are not kept in the trace. *)
Definition prompt_list (choices : list DriveFile) (first : DriveFile) : M DriveFile :=
  emit (EvPromptList choices) ;;
  ret (nth (answer_list O choices) choices first).

Definition prompt_confirm (fileName db : string) (dflt : bool) : M bool :=
  emit (EvPromptConfirm fileName db dflt) ;;
  ret (answer_confirm O fileName).

Definition prompt_menu (choices : list Action) : M Action :=
  emit (EvPromptMenu choices) ;;
  match answer_menu O with
  | Chosen action => ret action
  | MenuRejected err => throw err
  end.

(** *** Backup functions: lines 48-100 *)

Definition dumpDatabase (dumpFile : string) : M Js.Value :=
  console_log (MsgCreatingDump (DB_NAME cfg)) ;;
  let cmd := dumpCommand cfg dumpFile in
  r <- exec cmd ;;
  match ex_error r with
  | Some error_message =>
      console_error (MsgDumpFailed (ex_stderr r)) ;;
      throw ("Database dump failed: " +:+ error_message)
  | None =>
      console_log MsgDumpCreated ;;
      ret Js.Undefined
  end.

(** [output] has a listener for [close] only, [archive] one for [error]
    only: an [error] of [output] is handled by nothing. *)
Definition zipFileFunc (dumpFile zipFile : string) : M Js.Value :=
  console_log (MsgCompressing dumpFile) ;;
  createWriteStream zipFile ;;
  r <- archive_file dumpFile dumpFile zipFile ;;
  match r with
  | ArchiveClosed pointer =>
      console_log (MsgCompressed zipFile pointer) ;;
      ret Js.Undefined
  | ArchiveError err =>
      console_error (MsgCompressionFailed err) ;;
      throw ("Compression failed: " +:+ err)
  | OutputError err _ => crash err
  end.

Definition uploadToGoogleDrive (zipFile : string) : M Js.Value :=
  console_log (MsgUploading zipFile) ;;
  createReadStream zipFile ;;
  response <- drive_files_create zipFile [GDRIVE_FOLDER_ID cfg] "application/zip" ;;
  match response with
  | Created fileId name link =>
      console_log (MsgUploadSuccessful fileId name link) ;;
      ret Js.Undefined
  | CreateRejected err => throw err
  | BodyStreamError err => crash err
  end.

(** *** Restore functions: lines 106-172 *)

Definition listQuery : string :=
  "'" +:+ GDRIVE_FOLDER_ID cfg +:+
  "' in parents and name contains 'backup-' and mimeType='application/zip' and trashed = false".

Definition listBackupsFromDrive : M (list DriveFile) :=
  console_log MsgListing ;;
  res <- drive_files_list listQuery "createdTime desc" 20 ;;
  match res with
  | Listed files => ret files
  | ListRejected err => throw err
  end.

(** [dest] has no listener at all, and the promise is settled by the
    events of the response only. *)
Definition downloadFileFromDrive (fileId fileName : string) : M Js.Value :=
  console_log (MsgDownloading fileName) ;;
  createWriteStream fileName ;;
  res <- drive_files_get fileId fileName ;;
  match res with
  | GetRejected err => throw err
  | StreamError err =>
      console_error (MsgDownloadError err) ;;
      throw err
  | StreamEnd =>
      console_log MsgDownloadComplete ;;
      ret Js.Undefined
  | DestStreamError err _ => crash err
  end.

(** The listeners are on the extraction stream.  When it emits [error]
    the promise is rejected, and the [close] that follows the error finds
    the listener of [close] still there: its message is written later, and
    its [resolve] has no effect.  An [error] of the read stream is handled
    by nothing. *)
Definition unzipRestoreFile (zipFile : string) : M string :=
  let sqlFile := Js.replace ".zip" "" zipFile in
  console_log (MsgUnzipping zipFile) ;;
  r <- unzip_extract zipFile "." ;;
  match uz_error r with
  | None =>
      console_log (MsgUnzipped sqlFile) ;;
      ret sqlFile
  | Some (ExtractFailed err) =>
      console_error (MsgUnzipFailed err) ;;
      defer (LateLog (MsgUnzipped sqlFile)) ;;
      throw err
  | Some (ReadFailed err) => crash err
  end.

Definition importDatabase (sqlFile : string) : M Js.Value :=
  console_log (MsgRestoring sqlFile) ;;
  let cmd := importCommand cfg sqlFile in
  r <- exec cmd ;;
  match ex_error r with
  | Some error_message =>
      console_error (MsgImportFailed (ex_stderr r)) ;;
      throw ("Database restore failed: " +:+ error_message)
  | None =>
      console_log MsgImported ;;
      ret Js.Undefined
  end.

(** *** Cleanup and the two pipelines: lines 179-261 *)

Definition cleanup_file (file : string) : M unit :=
  try_catch
    (present <- existsSync file ;;
     if present then
       unlinkSync file ;;
       console_log (MsgDeleted file)
     else ret tt)
    (fun err => console_error (MsgDeleteFailed file (Js.message err))).

Definition cleanup (files : list string) : M unit :=
  console_log MsgCleaningUp ;;
  forEach cleanup_file files.

Definition backupTimestamp : string := Js.replace_colon_dot (date_toISOString O).
Definition backupDumpFile : string :=
  "backup-" +:+ DB_NAME cfg +:+ "-" +:+ backupTimestamp +:+ ".sql".
Definition backupZipFile : string := backupDumpFile +:+ ".zip".

(** The [try] block of [runBackupProcess] with its [catch]. *)
Definition backupStages : M unit :=
  try_catch
    (dumpDatabase backupDumpFile ;;
     zipFileFunc backupDumpFile backupZipFile ;;
     uploadToGoogleDrive backupZipFile ;;
     console_log MsgBackupCompleted)
    (fun error =>
       console_error (MsgBackupFailed (Js.message error)) ;;
       set_exitCode 1).

Definition runBackupProcess : M unit :=
  try_finally backupStages (cleanup [backupDumpFile; backupZipFile]).

(** The [try] block of [runRestoreProcess] with its [catch].  The test
    [files.length === 0] is the match on the empty list; the two early
    [return]s are the branches that end after their message. *)
Definition restoreStages : M unit :=
  try_catch
    (files <- listBackupsFromDrive ;;
     match files with
     | [] => console_log MsgNoBackups
     | first :: _ =>
         fileToRestore <- prompt_list files first ;;
         confirm <- prompt_confirm (df_name fileToRestore) (DB_NAME cfg) false ;;
         if negb confirm then
           console_log MsgRestoreCancelled
         else
           assign "downloadedZipFile" (df_name fileToRestore) ;;
           downloadedZipFile <- read_var "downloadedZipFile" ;;
           downloadFileFromDrive (df_id fileToRestore) downloadedZipFile ;;
           sqlFile <- unzipRestoreFile downloadedZipFile ;;
           assign "extractedSqlFile" sqlFile ;;
           extractedSqlFile <- read_var "extractedSqlFile" ;;
           importDatabase extractedSqlFile ;;
           console_log MsgRestoreCompleted
     end)
    (fun error =>
       console_error (MsgRestoreFailed (Js.message error)) ;;
       set_exitCode 1).

(** [[downloadedZipFile, extractedSqlFile].filter(Boolean)]. *)
Definition restoreArtifacts : M (list string) :=
  downloadedZipFile <- read_var "downloadedZipFile" ;;
  extractedSqlFile <- read_var "extractedSqlFile" ;;
  ret (List.filter Js.truthy [downloadedZipFile; extractedSqlFile]).

(** [let downloadedZipFile = ''; let extractedSqlFile = '';] *)
Definition declareRestoreVars : M unit :=
  assign "downloadedZipFile" "" ;;
  assign "extractedSqlFile" "".

Definition runRestoreProcess : M unit :=
  declareRestoreVars ;;
  try_finally restoreStages (files <- restoreArtifacts ;; cleanup files).

(** *** The menu: lines 268-305 *)

Definition menuChoices : list Action := [ActBackup; ActRestore; ActExit].

Definition showMainMenu : M unit :=
  emit EvClear ;;
  console_log MsgBannerRule ;;
  console_log MsgBannerTitle ;;
  console_log MsgBannerRule ;;
  action <- prompt_menu menuChoices ;;
  match action with
  | ActBackup => runBackupProcess
  | ActRestore => runRestoreProcess
  | ActExit =>
      console_log MsgGoodbye ;;
      process_exit 0
  end.

(** [showMainMenu().catch(err => { console.error(...); process.exit(1) })],
    then what is still pending, after which the process ends. *)
Definition startMenu : M unit :=
  try_catch showMainMenu
    (fun err =>
       console_error (MsgUnexpected (Js.message err)) ;;
       process_exit 1) ;;
  drain.

End Program.

(** [dotenv.config()], line 12: the variables of [.env] are added to the
    environment, those already set keeping their value. *)
Definition dotenv_config (O : Oracle) (penv : gmap string string) : gmap string string :=
  penv ∪ dotenv_parsed O.

(** The whole module: [dotenv.config()], the validation of the
    environment, then the menu.  [EvDotenvConfig] stands for the call of
    line 12, in which the library reads [.env] and writes its notice.  A
    throw at load is caught by nothing. *)
Definition main (O : Oracle) (penv : gmap string string) : M unit :=
  emit EvDotenvConfig ;;
  match loadConfig (dotenv_config O penv) with
  | inl e => fun st => (Thrown e, st)
  | inr cfg => startMenu O cfg
  end.

(** ** Observations on traces *)

#[global] Instance DriveFile_eq_dec : EqDecision DriveFile.
Proof. solve_decision. Defined.
#[global] Instance LogMsg_eq_dec : EqDecision LogMsg.
Proof. solve_decision. Defined.
#[global] Instance Action_eq_dec : EqDecision Action.
Proof. solve_decision. Defined.
#[global] Instance Event_eq_dec : EqDecision Event.
Proof. solve_decision. Defined.

(** The events a run added to the trace between two of its states. *)
Definition events_since (st st' : State) : list Event :=
  drop (length (trace st)) (trace st').

Definition count (p : Event -> bool) (evs : list Event) : nat :=
  length (List.filter p evs).

(** The entry of [cleanup]: its first statement is the log of
    [MsgCleaningUp], which no other function writes. *)
Definition is_cleanup_start (e : Event) : bool :=
  match e with
  | EvLog MsgCleaningUp => true
  | _ => false
  end.

Definition is_menu_prompt (e : Event) : bool :=
  match e with
  | EvPromptMenu _ => true
  | _ => false
  end.

Definition is_prompt (e : Event) : bool :=
  match e with
  | EvPromptMenu _ | EvPromptList _ | EvPromptConfirm _ _ _ => true
  | _ => false
  end.

(** Calls that can create a local file. *)
Definition is_file_write (e : Event) : bool :=
  match e with
  | EvCreateWriteStream _ | EvExec _ | EvUnzipExtract _ _ | EvArchive _ _ => true
  | _ => false
  end.

(** The calls of the download, unpack and import operations. *)
Definition is_restore_operation (e : Event) : bool :=
  match e with
  | EvCreateWriteStream _ | EvDriveGet _ | EvCreateReadStream _
  | EvUnzipExtract _ _ | EvExec _ => true
  | _ => false
  end.

(** The calls of the pack and upload operations. *)
Definition is_pack_or_upload (e : Event) : bool :=
  match e with
  | EvCreateWriteStream _ | EvArchive _ _ | EvCreateReadStream _
  | EvDriveCreate _ _ _ => true
  | _ => false
  end.

(** The paths handed to [fs.unlinkSync], in order: the deletions attempted. *)
Fixpoint unlink_attempts (evs : list Event) : list string :=
  match evs with
  | [] => []
  | EvUnlinkSync p :: rest => p :: unlink_attempts rest
  | _ :: rest => unlink_attempts rest
  end.

(** The paths handed to [fs.existsSync], in order.  Only [cleanup] calls
    it, once per path it is given. *)
Fixpoint exists_checks (evs : list Event) : list string :=
  match evs with
  | [] => []
  | EvExistsSync p :: rest => p :: exists_checks rest
  | _ :: rest => exists_checks rest
  end.

(** The paths [unzipRestoreFile] returned, read off its message of
    success. *)
Fixpoint unpacked_paths (evs : list Event) : list string :=
  match evs with
  | [] => []
  | EvLog (MsgUnzipped sqlFile) :: rest => sqlFile :: unpacked_paths rest
  | _ :: rest => unpacked_paths rest
  end.

(** What [cleanup] does on a list of paths, as a function of the files
    present: its events after the opening message, and the files left. *)
Fixpoint cleanup_events (O : Oracle) (files : list string) (present : gset string) : list Event :=
  match files with
  | [] => []
  | file :: rest =>
      if bool_decide (file ∈ present) then
        match fs_unlink_error O file with
        | None =>
            EvExistsSync file :: EvUnlinkSync file :: EvLog (MsgDeleted file)
              :: cleanup_events O rest (present ∖ {[file]})
        | Some err =>
            EvExistsSync file :: EvUnlinkSync file :: EvError (MsgDeleteFailed file err)
              :: cleanup_events O rest present
        end
      else EvExistsSync file :: cleanup_events O rest present
  end.

Fixpoint cleanup_fs (O : Oracle) (files : list string) (present : gset string) : gset string :=
  match files with
  | [] => present
  | file :: rest =>
      if bool_decide (file ∈ present) then
        match fs_unlink_error O file with
        | None => cleanup_fs O rest (present ∖ {[file]})
        | Some _ => cleanup_fs O rest present
        end
      else cleanup_fs O rest present
  end.

(** ** Intermediate states of the pipelines *)

(** The state in which the [try] statement of [runRestoreProcess] is
    entered, and the one in which its [finally] block is entered. *)
Definition restore_entry (st : State) : State := (declareRestoreVars st).2.
Definition restore_mid (O : Oracle) (cfg : Config) (st : State) : State :=
  (restoreStages O cfg (restore_entry st)).2.

(** What is handed to [cleanup] at the end of a restore: the two
    variables, less the empty ones. *)
Definition restore_registered (st : State) : list string :=
  List.filter Js.truthy
    [default "" (locals st !! "downloadedZipFile");
     default "" (locals st !! "extractedSqlFile")].



Fixpoint late_fs (ls : list Late) (present : gset string) : gset string :=
  match ls with
  | [] => present
  | LateCreate path :: rest => late_fs rest (present ∪ list_to_set [path])
  | LateLog _ :: rest => late_fs rest present
  end.

(** The state [cleanup] leaves when it is called on [files] in [mid]. *)
Definition after_cleanup (O : Oracle) (files : list string) (mid : State) : State :=
  {| fs := cleanup_fs O files (fs mid);
     trace := trace mid ++ EvLog MsgCleaningUp :: cleanup_events O files (fs mid);
     exitCode := exitCode mid; locals := locals mid; deferred := deferred mid |}.

(** ** The statements of the specification that the code does not meet

    Each is written out as the specification words it, to be compared with
    the code at a concrete run. *)

(** Restore: cleanup is called on exactly those of the downloaded archive
    path and the extracted dump path whose files the run created before the
    stages ended. *)
Definition restore_cleanup_tracks_created (O : Oracle) (cfg : Config) (st : State)
    (zipPath : string) : Prop :=
  let mid := restore_mid O cfg st in
  let fin := (runRestoreProcess O cfg st).2 in
  exists_checks (events_since mid fin) =
  List.filter (fun p => bool_decide (p ∈ fs mid ∖ fs st))
              [zipPath; Js.replace ".zip" "" zipPath].

(** Pack: a successful pack returns the byte count of the archive. *)
Definition pack_returns_byte_count (O : Oracle) (dumpFile zipFile : string) (st : State) : Prop :=
  ∀ pointer,
    archiver_zip O dumpFile zipFile (fs st ∪ list_to_set [zipFile]) = ArchiveClosed pointer →
    (zipFileFunc O dumpFile zipFile st).1 = Returned (Js.Number pointer).

(** Unpack: for an archive named [s ++ ".zip"] the path returned is [s]. *)
Definition unpack_strips_suffix (O : Oracle) (s : string) (st : State) : Prop :=
  (unzipRestoreFile O (s +:+ ".zip") st).1 = Returned s.


(** ** Concrete runs *)

Module Examples.

Definition cfg : Config :=
  {| DB_HOST := "localhost"; DB_USER := "root"; DB_PASSWORD := "";
     DB_NAME := "shop";
     GDRIVE_CLIENT_EMAIL := "backup@example.iam.gserviceaccount.com";
     GDRIVE_PRIVATE_KEY := "KEY"; GDRIVE_FOLDER_ID := "folder1" |}.

Definition penv : gmap string string :=
  list_to_map
    [("DB_HOST", "localhost"); ("DB_USER", "root"); ("DB_PASSWORD", "");
     ("DB_NAME", "shop");
     ("GDRIVE_CLIENT_EMAIL", "backup@example.iam.gserviceaccount.com");
     ("GDRIVE_PRIVATE_KEY", "KEY"); ("GDRIVE_FOLDER_ID", "folder1")].

(** The text after the first occurrence of [pat], if there is one. *)
Fixpoint after (pat s : string) : option string :=
  if String.prefix pat s then Some (Js.drop (String.length pat) s)
  else match s with
       | EmptyString => None
       | String _ s' => after pat s'
       end.

(** A shell for the two command lines of the program: [< file] fails
    when the file is missing, [> file] creates the file. *)
Definition sh (cmd : string) (present : gset string) : ExecResult :=
  match after " < " cmd with
  | Some source =>
      if bool_decide (source ∈ present) then mkExecResult None "" "" []
      else mkExecResult (Some ("Command failed: " +:+ cmd)) ""
                        ("/bin/sh: cannot open " +:+ source +:+ ": No such file") []
  | None =>
      match after " > " cmd with
      | Some target => mkExecResult None "" "" [target]
      | None => mkExecResult None "" "" []
      end
  end.

(** A shell whose dump tool is refused by the server; the redirection
    has created the dump file all the same. *)
Definition sh_denied (cmd : string) (present : gset string) : ExecResult :=
  match after " > " cmd with
  | Some target =>
      mkExecResult (Some ("Command failed: " +:+ cmd +:+ nl +:+ "Access denied"))
                   "" "Access denied" [target]
  | None => sh cmd present
  end.

(** The name of the entry of an archive made by [zipFileFunc]: the name
    of the dump, which is the archive name less its last four characters. *)
Fixpoint entry_name (zipFile : string) : string :=
  match zipFile with
  | EmptyString => EmptyString
  | String c rest =>
      if (String.length rest <? 4)%nat then EmptyString else String c (entry_name rest)
  end.

Definition unzip_ok (zipFile : string) (present : gset string) : UnzipResult :=
  mkUnzipResult None [entry_name zipFile].

(** A truncated archive: the entry is written in part, then the stream
    fails. *)
Definition unzip_truncated (zipFile : string) (present : gset string) : UnzipResult :=
  mkUnzipResult (Some (ExtractFailed "FILE_ENDED")) [entry_name zipFile].

Definition remote : list DriveFile :=
  [mkDriveFile "id3" "backup-shop-2024-01-03T00-00-00-000Z.sql.zip" "2024-01-03T00:00:00.000Z";
   mkDriveFile "id2" "backup-shop-2024-01-02T00-00-00-000Z.sql.zip" "2024-01-02T00:00:00.000Z";
   mkDriveFile "id1" "backup-shop-2024-01-01T00-00-00-000Z.sql.zip" "2024-01-01T00:00:00.000Z"].

(** Every collaborator succeeds; the user picks the second record and
    confirms. *)
Definition happy (menu : Action) : Oracle :=
  {| date_toISOString := "2024-01-01T00:00:00.000Z";
     child_exec := sh;
     archiver_zip := fun _ _ _ => ArchiveClosed 1234;
     drive_create := fun name => Created "id4" name "https://drive.example/id4";
     drive_list := Listed remote;
     drive_get := fun _ => StreamEnd;
     unzipper_extract := unzip_ok;
     fs_unlink_error := fun _ => None;
     answer_menu := Chosen menu;
     answer_list := fun _ => 1%nat;
     answer_confirm := fun _ => true;
     dotenv_parsed := ∅;
     fs_open_late := fun _ => false |}.

Definition dump_denied : Oracle :=
  {| date_toISOString := "2024-01-01T00:00:00.000Z";
     child_exec := sh_denied;
     archiver_zip := fun _ _ _ => ArchiveClosed 1234;
     drive_create := fun name => Created "id4" name "https://drive.example/id4";
     drive_list := Listed remote;
     drive_get := fun _ => StreamEnd;
     unzipper_extract := unzip_ok;
     fs_unlink_error := fun _ => None;
     answer_menu := Chosen ActBackup;
     answer_list := fun _ => 1%nat;
     answer_confirm := fun _ => true;
     dotenv_parsed := ∅;
     fs_open_late := fun _ => false |}.

(** The restore scenarios: what the listing holds, what the user
    answers, how the download and the unpacking end. *)
Definition restoring (listing : ListResult) (confirm : bool) (get : GetResult)
    (unzip : string -> gset string -> UnzipResult) : Oracle :=
  {| date_toISOString := "2024-01-01T00:00:00.000Z";
     child_exec := sh;
     archiver_zip := fun _ _ _ => ArchiveClosed 1234;
     drive_create := fun name => Created "id4" name "https://drive.example/id4";
     drive_list := listing;
     drive_get := fun _ => get;
     unzipper_extract := unzip;
     fs_unlink_error := fun _ => None;
     answer_menu := Chosen ActRestore;
     answer_list := fun _ => 1%nat;
     answer_confirm := fun _ => confirm;
     dotenv_parsed := ∅;
     fs_open_late := fun _ => false |}.

Definition declined : Oracle := restoring (Listed remote) false StreamEnd unzip_ok.
Definition nothing_listed : Oracle := restoring (Listed []) true StreamEnd unzip_ok.
Definition download_refused : Oracle :=
  restoring (Listed remote) true (GetRejected "ECONNRESET") unzip_ok.
Definition truncated_archive : Oracle :=
  restoring (Listed remote) true StreamEnd unzip_truncated.

(** A backup of a database called [my.zipdb], as [runBackupProcess]
    names it. *)
Definition inner_zip_name : string := "backup-my.zipdb-2024-01-01T00-00-00-000Z.sql.zip".
Definition inner_zip : Oracle :=
  restoring (Listed [mkDriveFile "id9" inner_zip_name "2024-01-01T00:00:00.000Z"])
            true StreamEnd unzip_ok.

Definition second_name : string := "backup-shop-2024-01-02T00-00-00-000Z.sql.zip".

End Examples.

(** The message by which a pipeline reports its failure. *)
Definition is_pipeline_failure (e : Event) : bool :=
  match e with
  | EvError (MsgBackupFailed _) | EvError (MsgRestoreFailed _) => true
  | _ => false
  end.

(** ** Further runs *)

Module Scenarios.

(** A backup whose collaborators answer as given. *)
Definition backing_up (zip : ArchiveResult) (create : string -> CreateResult)
    (unlink : string -> option string) : Oracle :=
  {| date_toISOString := "2024-01-01T00:00:00.000Z";
     child_exec := Examples.sh;
     archiver_zip := fun _ _ _ => zip;
     drive_create := create;
     drive_list := Listed Examples.remote;
     drive_get := fun _ => StreamEnd;
     unzipper_extract := Examples.unzip_ok;
     fs_unlink_error := unlink;
     answer_menu := Chosen ActBackup;
     answer_list := fun _ => 1%nat;
     answer_confirm := fun _ => true;
     dotenv_parsed := ∅;
     fs_open_late := fun _ => false |}.

Definition uploaded (name : string) : CreateResult :=
  Created "id4" name "https://drive.example/id4".

Definition pack_fails : Oracle :=
  backing_up (ArchiveError "EACCES") uploaded (fun _ => None).

Definition upload_fails : Oracle :=
  backing_up (ArchiveClosed 1234) (fun _ => CreateRejected "storageQuotaExceeded")
             (fun _ => None).

(** The directory does not let its files be removed. *)
Definition unlink_fails : Oracle :=
  backing_up (ArchiveClosed 1234) uploaded (fun _ => Some "EPERM").

Definition listing_fails : Oracle :=
  Examples.restoring (ListRejected "invalid_grant") true StreamEnd Examples.unzip_ok.

Definition restore_ok : Oracle :=
  Examples.restoring (Listed Examples.remote) true StreamEnd Examples.unzip_ok.

(** The environment of [Examples.penv] with an empty host. *)
Definition penv_empty_host : gmap string string := <["DB_HOST" := ""]> Examples.penv.

(** The disk fills up while the archive is written. *)
Definition disk_full : Oracle :=
  backing_up (OutputError "ENOSPC" true) uploaded (fun _ => None).

(** The request of the download is rejected while the open of the write
    stream is still pending. *)
Definition rejected_at_once : Oracle :=
  {| date_toISOString := "2024-01-01T00:00:00.000Z";
     child_exec := Examples.sh;
     archiver_zip := fun _ _ _ => ArchiveClosed 1234;
     drive_create := uploaded;
     drive_list := Listed Examples.remote;
     drive_get := fun _ => GetRejected "invalid_grant";
     unzipper_extract := Examples.unzip_ok;
     fs_unlink_error := fun _ => None;
     answer_menu := Chosen ActRestore;
     answer_list := fun _ => 1%nat;
     answer_confirm := fun _ => true;
     dotenv_parsed := ∅;
     fs_open_late := fun _ => true |}.

(** The menu is closed before an answer is given. *)
Definition menu_closed : Oracle :=
  {| date_toISOString := "2024-01-01T00:00:00.000Z";
     child_exec := Examples.sh;
     archiver_zip := fun _ _ _ => ArchiveClosed 1234;
     drive_create := uploaded;
     drive_list := Listed Examples.remote;
     drive_get := fun _ => StreamEnd;
     unzipper_extract := Examples.unzip_ok;
     fs_unlink_error := fun _ => None;
     answer_menu := MenuRejected "User force closed the prompt";
     answer_list := fun _ => 1%nat;
     answer_confirm := fun _ => true;
     dotenv_parsed := ∅;
     fs_open_late := fun _ => false |}.

(** The variables come from [.env], the host being left empty there. *)
Definition from_dotenv : Oracle :=
  {| date_toISOString := "2024-01-01T00:00:00.000Z";
     child_exec := Examples.sh;
     archiver_zip := fun _ _ _ => ArchiveClosed 1234;
     drive_create := uploaded;
     drive_list := Listed Examples.remote;
     drive_get := fun _ => StreamEnd;
     unzipper_extract := Examples.unzip_ok;
     fs_unlink_error := fun _ => None;
     answer_menu := Chosen ActBackup;
     answer_list := fun _ => 1%nat;
     answer_confirm := fun _ => true;
     dotenv_parsed := <["DB_HOST" := ""]> Examples.penv;
     fs_open_late := fun _ => false |}.

Definition newest : DriveFile :=
  mkDriveFile "id3" "backup-shop-2024-01-03T00-00-00-000Z.sql.zip" "2024-01-03T00:00:00.000Z".

End Scenarios.

(** ** Symbolic runs *)

(** Unfolds the program down to the answers of the collaborators. *)
Ltac unfold_program :=
  unfold runBackupProcess, runRestoreProcess, declareRestoreVars, restore_mid,
    restore_entry, backupStages, restoreStages, restoreArtifacts, showMainMenu, startMenu,
    dumpDatabase, zipFileFunc, uploadToGoogleDrive, listBackupsFromDrive,
    downloadFileFromDrive, unzipRestoreFile, importDatabase,
    exec, createWriteStream, createReadStream, archive_file, drive_files_create,
    drive_files_list, drive_files_get, unzip_extract, prompt_list, prompt_confirm,
    prompt_menu, try_finally, try_catch, bind, ret, throw, crash, defer, stream_opened,
    emit, console_log, console_error, write_files, read_fs, set_exitCode, process_exit,
    assign, read_var.

Ltac normalise_trace :=
  cbn [fs trace exitCode locals deferred fst snd]; rewrite <- ?app_assoc; cbn [app].

Ltac simpl_locals :=
  repeat (rewrite lookup_insert_eq || rewrite lookup_insert_ne by done); cbn [default from_option].

(** The states in which the stages of a confirmed restore can end. *)
Ltac restore_cases O :=
  destruct (drive_get O _) as [?|?| |? []]; cbn -[Js.truthy];
  [ destruct (fs_open_late O _); cbn -[Js.truthy]
  |
  | destruct (uz_error (unzipper_extract O _ _)) as [[?|?]|]; cbn -[Js.truthy];
    [ | | simpl_locals; destruct (ex_error (child_exec O _ _)); cbn -[Js.truthy] ]
  | | ].

(** Splits the membership of an event in an explicit list into its cases. *)
Ltac mem_cases H :=
  repeat (apply elem_of_cons in H as [H|H]; [try discriminate H|]);
  try (by apply elem_of_nil in H).

(** * Properties *)

(** ** Traces *)

Lemma events_since_app (st st' : State) (evs : list Event) :
  trace st' = trace st ++ evs → events_since st st' = evs.
Proof.
  intros H. unfold events_since. rewrite H. apply drop_app_length.
Qed.

Lemma count_app (p : Event -> bool) (l1 l2 : list Event) :
  count p (l1 ++ l2) = (count p l1 + count p l2)%nat.
Proof.
  unfold count. rewrite List.filter_app. apply length_app.
Qed.

Lemma unlink_attempts_app (l1 l2 : list Event) :
  unlink_attempts (l1 ++ l2) = unlink_attempts l1 ++ unlink_attempts l2.
Proof.
  induction l1 as [|e l1 IH]; [done|]. destruct e; simpl; rewrite ?IH; done.
Qed.

Lemma exists_checks_app (l1 l2 : list Event) :
  exists_checks (l1 ++ l2) = exists_checks l1 ++ exists_checks l2.
Proof.
  induction l1 as [|e l1 IH]; [done|]. destruct e; simpl; rewrite ?IH; done.
Qed.

(** ** Cleanup *)

Section Cleanup.

Variable O : Oracle.

Lemma forEach_cleanup_file (files : list string) (st : State) :
  forEach (cleanup_file O) files st =
  (Returned tt,
   {| fs := cleanup_fs O files (fs st);
      trace := trace st ++ cleanup_events O files (fs st);
      exitCode := exitCode st; locals := locals st;
                   deferred := deferred st |}).
Proof.
  revert st. induction files as [|file rest IH]; intros st.
  - simpl. unfold ret. rewrite app_nil_r. by destruct st.
  - cbn [forEach]. unfold bind at 1.
    unfold cleanup_file, try_catch, existsSync, unlinkSync, bind, emit, read_fs,
      ret, throw, remove_file, console_log, console_error.
    cbn. destruct (bool_decide (file ∈ fs st)) eqn:Hin; cbn.
    + destruct (fs_unlink_error O file) as [err|] eqn:Herr; cbn;
        rewrite IH; cbn; rewrite <- !app_assoc; cbn; reflexivity.
    + rewrite IH. cbn. rewrite <- !app_assoc. reflexivity.
Qed.

Lemma cleanup_run (files : list string) (st : State) :
  cleanup O files st =
  (Returned tt,
   {| fs := cleanup_fs O files (fs st);
      trace := trace st ++ EvLog MsgCleaningUp :: cleanup_events O files (fs st);
      exitCode := exitCode st; locals := locals st;
                   deferred := deferred st |}).
Proof.
  unfold cleanup, console_log, emit, bind. rewrite forEach_cleanup_file.
  cbn. rewrite <- !app_assoc. reflexivity.
Qed.

Lemma cleanup_events_exists_checks (files : list string) (present : gset string) :
  exists_checks (cleanup_events O files present) = files.
Proof.
  revert present. induction files as [|file rest IH]; intros present; [done|].
  cbn. destruct (bool_decide _); [destruct (fs_unlink_error O file)|];
    cbn; by rewrite IH.
Qed.

Lemma cleanup_events_count (p : Event -> bool) (files : list string) (present : gset string) :
  (∀ path, p (EvExistsSync path) = false) →
  (∀ path, p (EvUnlinkSync path) = false) →
  (∀ path, p (EvLog (MsgDeleted path)) = false) →
  (∀ path err, p (EvError (MsgDeleteFailed path err)) = false) →
  count p (cleanup_events O files present) = 0%nat.
Proof.
  intros H1 H2 H3 H4. revert present.
  induction files as [|file rest IH]; intros present; [done|].
  unfold count in *. cbn.
  destruct (bool_decide _); [destruct (fs_unlink_error O file)|];
    cbn; rewrite ?H1, ?H2, ?H3, ?H4; apply IH.
Qed.

(** Nothing is created by cleanup. *)
Lemma cleanup_fs_subseteq (files : list string) (present : gset string) :
  cleanup_fs O files present ⊆ present.
Proof.
  revert present. induction files as [|file rest IH]; intros present; [done|].
  cbn. destruct (bool_decide _); [destruct (fs_unlink_error O file)|]; try apply IH.
  etrans; [apply IH|]. set_solver.
Qed.

(** Every deletion attempted is of a path given to cleanup at which a
    file exists. *)
Lemma cleanup_events_unlink_sound (files : list string) (present : gset string) (p : string) :
  p ∈ unlink_attempts (cleanup_events O files present) → p ∈ files ∧ p ∈ present.
Proof.
  revert present. induction files as [|file rest IH]; intros present; cbn.
  - by intros ?%elem_of_nil.
  - destruct (bool_decide (file ∈ present)) eqn:Hin;
      [apply bool_decide_eq_true in Hin; destruct (fs_unlink_error O file)|]; cbn.
    + intros [->|H]%elem_of_cons; [set_solver|]. apply IH in H. set_solver.
    + intros [->|H]%elem_of_cons; [set_solver|]. apply IH in H. set_solver.
    + intros H. apply IH in H. set_solver.
Qed.

(** Every path given to cleanup at which a file exists is attempted. *)
Lemma cleanup_events_unlink_complete (files : list string) (present : gset string) (p : string) :
  p ∈ files → p ∈ present → p ∈ unlink_attempts (cleanup_events O files present).
Proof.
  revert present. induction files as [|file rest IH]; intros present; cbn.
  - by intros ?%elem_of_nil.
  - intros Hp Hpres. destruct (decide (p = file)) as [->|Hne].
    + rewrite bool_decide_eq_true_2 by done.
      destruct (fs_unlink_error O file); cbn; set_solver.
    + assert (p ∈ rest) by set_solver.
      destruct (bool_decide (file ∈ present)); [destruct (fs_unlink_error O file)|]; cbn;
        rewrite ?elem_of_cons; [right|right|]; apply IH; set_solver.
Qed.

(** On distinct paths, the deletions attempted are the paths at which a
    file exists, in the order given. *)
Lemma cleanup_events_unlink_exact (files : list string) (present : gset string) :
  NoDup files →
  unlink_attempts (cleanup_events O files present) =
  List.filter (fun p => bool_decide (p ∈ present)) files.
Proof.
  intros Hnd. revert present. induction Hnd as [|file rest Hnotin Hnd IH]; intros present; [done|].
  cbn. destruct (bool_decide (file ∈ present)) eqn:Hin.
  - destruct (fs_unlink_error O file); cbn; f_equal; rewrite IH; [done|].
    apply List.filter_ext_in. intros q Hq%list_elem_of_In.
    apply bool_decide_ext. set_solver.
  - apply IH.
Qed.

End Cleanup.

(** ** Strings *)

Lemma string_app_length (s t : string) :
  String.length (s +:+ t) = (String.length s + String.length t)%nat.
Proof. induction s as [|c s IH]; simpl; [done|]. by rewrite IH. Qed.

Lemma string_app_ne_self (s t : string) : t ≠ "" → s +:+ t ≠ s.
Proof.
  intros Ht Heq. apply (f_equal String.length) in Heq.
  rewrite string_app_length in Heq. destruct t; [done|]. simpl in Heq. lia.
Qed.

Lemma backup_paths_distinct (O : Oracle) (cfg : Config) :
  backupDumpFile O cfg ≠ backupZipFile O cfg.
Proof. unfold backupZipFile. intros H. symmetry in H. by apply string_app_ne_self in H. Qed.

(** ** The backup pipeline *)

(** The stages of a backup come back to [runBackupProcess] normally, every
    failure that can be caught being caught, unless a stream error kills
    the process.  They call neither [cleanup] nor [fs.unlinkSync]. *)
Lemma backupStages_run (O : Oracle) (cfg : Config) (st : State) :
  ∃ evs mid outcome,
    backupStages O cfg st = (outcome, mid) ∧
    trace mid = trace st ++ evs ∧
    locals mid = locals st ∧
    fs st ⊆ fs mid ∧
    count is_cleanup_start evs = 0%nat ∧
    count is_menu_prompt evs = 0%nat ∧
    unlink_attempts evs = [] ∧
    exists_checks evs = [] ∧
    (outcome = Returned tt ∨ ∃ e, outcome = Crashed e).
Proof.
  unfold_program. cbn.
  destruct (ex_error (child_exec O _ _)); cbn.
  { eexists _, _, _. split; [reflexivity|]. normalise_trace.
    split_and!; try reflexivity; [set_solver|by left]. }
  destruct (archiver_zip O _ _ _) as [pointer|err|err [|]]; cbn.
  2:{ eexists _, _, _. split; [reflexivity|]. normalise_trace.
      split_and!; try reflexivity; [set_solver|by left]. }
  2,3: eexists _, _, _; (split; [reflexivity|]); normalise_trace;
    split_and!; try reflexivity; [set_solver|right; by eexists].
  destruct (drive_create O _); cbn.
  1,2: eexists _, _, _; (split; [reflexivity|]); normalise_trace;
    split_and!; try reflexivity; [set_solver|by left].
  eexists _, _, _; (split; [reflexivity|]); normalise_trace;
    split_and!; try reflexivity; [set_solver|right; by eexists].
Qed.

(** [cleanup] follows the stages unless the process died in them. *)
Lemma runBackupProcess_unfold (O : Oracle) (cfg : Config) (st : State) :
  runBackupProcess O cfg st =
  match backupStages O cfg st with
  | (Returned a, mid) =>
      (Returned a, after_cleanup O [backupDumpFile O cfg; backupZipFile O cfg] mid)
  | (Thrown e, mid) =>
      (Thrown e, after_cleanup O [backupDumpFile O cfg; backupZipFile O cfg] mid)
  | other => other
  end.
Proof.
  unfold runBackupProcess, try_finally.
  destruct (backupStages O cfg st) as [[a|e|c|e] mid]; rewrite ?cleanup_run; reflexivity.
Qed.

Lemma runBackupProcess_run (O : Oracle) (cfg : Config) (st : State) :
  (backupStages O cfg st).1 = Returned tt →
  runBackupProcess O cfg st =
  (Returned tt,
   after_cleanup O [backupDumpFile O cfg; backupZipFile O cfg] (backupStages O cfg st).2).
Proof.
  rewrite runBackupProcess_unfold.
  destruct (backupStages O cfg st) as [outcome mid]. cbn. by intros ->.
Qed.

Lemma runBackupProcess_outcome (O : Oracle) (cfg : Config) (st : State) :
  (runBackupProcess O cfg st).1 = (backupStages O cfg st).1.
Proof.
  rewrite runBackupProcess_unfold. by destruct (backupStages O cfg st) as [[a|e|c|e] mid].
Qed.

(** X18. In every backup run that no stream error kills, whatever the
    stages do (the dump, the pack or the upload fails, or none does),
    [runBackupProcess] returns normally after one call of [cleanup], made
    after the stages, and the deletions [cleanup] attempts are exactly
    those of the dump path and the archive path at which the stages
    created a file: no deletion is attempted for an artifact that was not
    created, and every attempt is on a path where a file exists.  The two
    names are new: no file bears them before the run. *)
Theorem backup_cleanup_once_on_created (O : Oracle) (cfg : Config) (st : State) :
  backupDumpFile O cfg ∉ fs st →
  backupZipFile O cfg ∉ fs st →
  let mid := (backupStages O cfg st).2 in
  let fin := runBackupProcess O cfg st in
  let artifacts := [backupDumpFile O cfg; backupZipFile O cfg] in
  fin.1 = Returned tt →
  events_since st fin.2 = events_since st mid ++ events_since mid fin.2 ∧
  count is_cleanup_start (events_since st mid) = 0%nat ∧
  count is_cleanup_start (events_since mid fin.2) = 1%nat ∧
  head (events_since mid fin.2) = Some (EvLog MsgCleaningUp) ∧
  unlink_attempts (events_since st mid) = [] ∧
  unlink_attempts (events_since mid fin.2) =
    List.filter (fun p => bool_decide (p ∈ fs mid ∖ fs st)) artifacts ∧
  Forall (fun p => p ∈ fs mid) (unlink_attempts (events_since mid fin.2)).
Proof.
  intros Hdump Hzip mid fin artifacts Halive. subst fin.
  rewrite runBackupProcess_outcome in Halive. rewrite (runBackupProcess_run _ _ _ Halive).
  fold mid. fold artifacts.
  destruct (backupStages_run O cfg st)
    as (evs & mid' & outcome & Hrun & Htr & _ & _ & Hc & _ & Hu & _).
  assert (mid = mid') as Hmid by (unfold mid; by rewrite Hrun).
  rewrite <- Hmid in Htr. clear Hrun Hmid mid' Halive.
  cbn [fst snd].
  rewrite (events_since_app st mid evs Htr).
  rewrite (events_since_app mid _ (EvLog MsgCleaningUp :: cleanup_events O artifacts (fs mid)))
    by reflexivity.
  assert (events_since st (after_cleanup O artifacts mid)
          = evs ++ EvLog MsgCleaningUp :: cleanup_events O artifacts (fs mid)) as ->.
  { apply events_since_app. cbn. rewrite Htr. by rewrite <- app_assoc. }
  assert (unlink_attempts (EvLog MsgCleaningUp :: cleanup_events O artifacts (fs mid)) =
          List.filter (fun p => bool_decide (p ∈ fs mid)) artifacts) as Hexact.
  { cbn [unlink_attempts]. apply cleanup_events_unlink_exact.
    unfold artifacts. repeat constructor; [|set_solver].
    rewrite list_elem_of_singleton. apply backup_paths_distinct. }
  repeat split; try done.
  - change (EvLog MsgCleaningUp :: ?l) with ([EvLog MsgCleaningUp] ++ l).
    rewrite count_app, cleanup_events_count; done.
  - rewrite Hexact. apply List.filter_ext_in.
    intros p Hp%list_elem_of_In. apply bool_decide_ext.
    unfold artifacts in Hp. set_solver.
  - rewrite Hexact. apply Forall_forall. intros p Hp%list_elem_of_In.
    apply List.filter_In in Hp as [_ Hp]. by apply bool_decide_eq_true in Hp.
Qed.

(** C1. The output stream of the pack has no listener for [error].  When
    it emits one, after the dump was made, the process dies there: the
    backup run does not come back, [cleanup] is never called, no deletion
    is attempted, the files the dump command wrote are left in the
    directory, and the process ends with status 1. *)
Theorem backup_output_error_skips_cleanup (O : Oracle) (cfg : Config) (st : State)
    (err : string) (opened : bool) :
  let dumpFile := backupDumpFile O cfg in
  let zipFile := backupZipFile O cfg in
  let dumped := child_exec O (dumpCommand cfg dumpFile) (fs st) in
  let fin := runBackupProcess O cfg st in
  ex_error dumped = None →
  archiver_zip O dumpFile zipFile
    (fs st ∪ list_to_set (ex_written dumped) ∪ list_to_set [zipFile]) = OutputError err opened →
  fin.1 = Crashed (Js.mkError err) ∧
  events_since st fin.2 =
    [EvLog (MsgCreatingDump (DB_NAME cfg)); EvExec (dumpCommand cfg dumpFile);
     EvLog MsgDumpCreated;
     EvLog (MsgCompressing dumpFile); EvCreateWriteStream zipFile;
     EvArchive dumpFile dumpFile] ∧
  count is_cleanup_start (events_since st fin.2) = 0%nat ∧
  unlink_attempts (events_since st fin.2) = [] ∧
  (∀ p, p ∈ ex_written dumped → p ∈ fs fin.2) ∧
  exit_status fin = 1.
Proof.
  intros dumpFile zipFile dumped fin Hdump Hzip. subst fin.
  rewrite runBackupProcess_unfold. unfold_program. cbn -[list_to_set].
  fold dumpFile. fold dumped. rewrite Hdump. cbn -[list_to_set].
  fold zipFile. rewrite Hzip.
  destruct opened; cbn -[list_to_set].
  all: erewrite !events_since_app by (cbn [trace]; rewrite <- ?app_assoc; reflexivity).
  all: split_and!; try done; intros p Hp; set_solver.
Qed.

(** ** The restore pipeline *)

(** The stages of a restore come back to [runRestoreProcess] normally
    unless a stream error kills the process, and call neither [cleanup]
    nor the menu. *)
Lemma restoreStages_run (O : Oracle) (cfg : Config) (st : State) :
  ∃ evs mid outcome,
    restoreStages O cfg st = (outcome, mid) ∧
    trace mid = trace st ++ evs ∧
    fs st ⊆ fs mid ∧
    count is_cleanup_start evs = 0%nat ∧
    count is_menu_prompt evs = 0%nat ∧
    unlink_attempts evs = [] ∧
    exists_checks evs = [] ∧
    (outcome = Returned tt ∨ ∃ e, outcome = Crashed e).
Proof.
  unfold_program. cbn.
  destruct (drive_list O) as [files|err]; cbn.
  2:{ eexists _, _, _. split; [reflexivity|]. normalise_trace.
      split_and!; try done. by left. }
  destruct files as [|first rest]; cbn.
  { eexists _, _, _. split; [reflexivity|]. normalise_trace.
    split_and!; try done. by left. }
  destruct (answer_confirm O _); cbn.
  2:{ eexists _, _, _. split; [reflexivity|]. normalise_trace.
      split_and!; try done. by left. }
  rewrite lookup_insert_eq. cbn.
  restore_cases O.
  all: eexists _, _, _; (split; [reflexivity|]); normalise_trace.
  all: split_and!; try reflexivity; try set_solver.
  all: first [by left | right; by eexists].
Qed.

(** [cleanup] follows the stages unless the process died in them. *)
Lemma runRestoreProcess_unfold (O : Oracle) (cfg : Config) (st : State) :
  runRestoreProcess O cfg st =
  match restoreStages O cfg (restore_entry st) with
  | (Returned a, mid) => (Returned a, after_cleanup O (restore_registered mid) mid)
  | (Thrown e, mid) => (Thrown e, after_cleanup O (restore_registered mid) mid)
  | other => other
  end.
Proof.
  unfold runRestoreProcess. unfold bind at 1.
  change (declareRestoreVars st) with (Returned tt, restore_entry st).
  cbn beta iota. unfold try_finally.
  destruct (restoreStages O cfg (restore_entry st)) as [[a|e|c|e] mid]; try reflexivity.
  all: unfold restoreArtifacts, bind, read_var, ret; cbn beta iota;
    fold (restore_registered mid); rewrite cleanup_run; reflexivity.
Qed.

(** A restore whose stages come back is ended by [cleanup] on the
    registered paths. *)
Lemma runRestoreProcess_after_stages (O : Oracle) (cfg : Config) (st : State) :
  let mid := restore_mid O cfg st in
  let fin := runRestoreProcess O cfg st in
  (restoreStages O cfg (restore_entry st)).1 = Returned tt →
  fin.1 = Returned tt ∧
  exitCode fin.2 = exitCode mid ∧
  fs fin.2 = cleanup_fs O (restore_registered mid) (fs mid) ∧
  events_since mid fin.2 =
    EvLog MsgCleaningUp :: cleanup_events O (restore_registered mid) (fs mid).
Proof.
  intros mid fin Halive. subst fin mid. rewrite runRestoreProcess_unfold. unfold restore_mid.
  destruct (restoreStages O cfg (restore_entry st)) as [outcome mid].
  cbn [fst snd] in *. subst outcome. cbn [fst snd after_cleanup exitCode fs].
  split_and!; try done. by apply events_since_app.
Qed.

Lemma cleanup_start_once (O : Oracle) (files : list string) (present : gset string) :
  count is_cleanup_start (EvLog MsgCleaningUp :: cleanup_events O files present) = 1%nat.
Proof.
  change (EvLog MsgCleaningUp :: ?l) with ([EvLog MsgCleaningUp] ++ l).
  rewrite count_app, cleanup_events_count; done.
Qed.

Lemma cleanup_attempts_present (O : Oracle) (files : list string) (present : gset string) :
  Forall (fun p => p ∈ present)
         (unlink_attempts (EvLog MsgCleaningUp :: cleanup_events O files present)).
Proof.
  cbn [unlink_attempts]. apply Forall_forall. intros p Hp.
  by apply cleanup_events_unlink_sound in Hp as [_ Hp].
Qed.

(** The shape of every restore run: the stages, then, unless the process
    died in them, one call of [cleanup] on the registered paths and a
    normal return. *)
Lemma runRestoreProcess_shape (O : Oracle) (cfg : Config) (st : State) :
  let mid := restore_mid O cfg st in
  let fin := runRestoreProcess O cfg st in
  events_since st fin.2 = events_since st mid ++ events_since mid fin.2 ∧
  count is_cleanup_start (events_since st mid) = 0%nat ∧
  count is_menu_prompt (events_since st mid) = 0%nat ∧
  unlink_attempts (events_since st mid) = [] ∧
  exists_checks (events_since st mid) = [] ∧
  exitCode fin.2 = exitCode mid ∧
  fs st ⊆ fs mid ∧
  ((fin.1 = Returned tt ∧
    fin.2 = after_cleanup O (restore_registered mid) mid ∧
    events_since mid fin.2 =
      EvLog MsgCleaningUp :: cleanup_events O (restore_registered mid) (fs mid)) ∨
   (∃ e, fin.1 = Crashed e ∧ fin.2 = mid ∧ events_since mid fin.2 = [])).
Proof.
  intros mid fin. subst fin mid. rewrite runRestoreProcess_unfold. unfold restore_mid.
  destruct (restoreStages_run O cfg (restore_entry st))
    as (evs & mid & outcome & Hrun & Htr & Hfs & Hc & Hm & Hu & He & Hout).
  rewrite Hrun. cbn [snd].
  change (trace (restore_entry st)) with (trace st) in Htr.
  change (fs (restore_entry st)) with (fs st) in Hfs.
  rewrite (events_since_app st mid evs Htr).
  destruct Hout as [->|[e ->]]; cbn [fst snd].
  - rewrite (events_since_app mid (after_cleanup O (restore_registered mid) mid)
               (EvLog MsgCleaningUp :: cleanup_events O (restore_registered mid) (fs mid)))
      by reflexivity.
    split_and!; try done.
    + apply events_since_app. cbn. rewrite Htr. by rewrite <- app_assoc.
    + by left.
  - rewrite (events_since_app mid mid []) by (by rewrite app_nil_r).
    split_and!; try done.
    + rewrite app_nil_r. by apply events_since_app.
    + right. by exists e.
Qed.

(** C7. When the listing returns no record, the restore run ends at once
    with the message that there is nothing to restore: no prompt is shown,
    no file is written, nothing is downloaded, unpacked or imported, and
    the run is not marked as failed. *)
Theorem restore_nothing_listed (O : Oracle) (cfg : Config) (st : State) :
  drive_list O = Listed [] →
  let fin := runRestoreProcess O cfg st in
  fin.1 = Returned tt ∧
  events_since st fin.2 =
    [EvLog MsgListing; EvDriveList (listQuery cfg) "createdTime desc" 20;
     EvLog MsgNoBackups; EvLog MsgCleaningUp] ∧
  count is_prompt (events_since st fin.2) = 0%nat ∧
  count is_file_write (events_since st fin.2) = 0%nat ∧
  count is_restore_operation (events_since st fin.2) = 0%nat ∧
  fs fin.2 = fs st ∧
  exitCode fin.2 = exitCode st.
Proof.
  intros Hlist fin. subst fin. rewrite runRestoreProcess_unfold.
  unfold after_cleanup, restore_registered. unfold_program. cbn. rewrite Hlist. cbn.
  simpl_locals. cbn.
  erewrite events_since_app by (cbn; rewrite <- !app_assoc; reflexivity).
  by repeat split.
Qed.

(** C3. When the user declines the confirmation, whose default answer is
    negative, the restore run ends with the cancellation message: nothing
    is downloaded, unpacked or imported, cleanup is given no path and
    deletes nothing, no file changes, and the exit code the process will
    end with is left as it was, which is zero for a process that has not
    failed before. *)
Theorem restore_declined (O : Oracle) (cfg : Config) (st : State)
    (first : DriveFile) (rest : list DriveFile) :
  let files := first :: rest in
  let chosen := nth (answer_list O files) files first in
  drive_list O = Listed files →
  answer_confirm O (df_name chosen) = false →
  let fin := runRestoreProcess O cfg st in
  fin.1 = Returned tt ∧
  events_since st fin.2 =
    [EvLog MsgListing; EvDriveList (listQuery cfg) "createdTime desc" 20;
     EvPromptList files; EvPromptConfirm (df_name chosen) (DB_NAME cfg) false;
     EvLog MsgRestoreCancelled; EvLog MsgCleaningUp] ∧
  count is_restore_operation (events_since st fin.2) = 0%nat ∧
  exists_checks (events_since st fin.2) = [] ∧
  unlink_attempts (events_since st fin.2) = [] ∧
  fs fin.2 = fs st ∧
  exitCode fin.2 = exitCode st ∧
  exit_status fin = default 0 (exitCode st).
Proof.
  intros files chosen Hlist Hconfirm fin. subst fin. rewrite runRestoreProcess_unfold.
  unfold after_cleanup, restore_registered. unfold_program. cbn. rewrite Hlist. cbn -[nth].
  fold files. fold chosen. rewrite Hconfirm. cbn.
  simpl_locals. cbn.
  erewrite events_since_app by (cbn; rewrite <- !app_assoc; reflexivity).
  by repeat split.
Qed.

(** X19. In a restore run that the user confirmed and whose stages end
    with the failure message (the download, the unpacking or the import
    failed), the failure is followed by one call of [cleanup] and a normal
    return with exit code 1.  [cleanup] is given the name of the
    downloaded archive and after it the path a successful unpacking
    returned, if there was one; empty names are left out.  It attempts to
    delete only paths at which a file exists. *)
Theorem restore_failure_cleanup (O : Oracle) (cfg : Config) (st : State)
    (first : DriveFile) (rest : list DriveFile) (err : string) :
  let files := first :: rest in
  let chosen := nth (answer_list O files) files first in
  let mid := restore_mid O cfg st in
  let fin := runRestoreProcess O cfg st in
  drive_list O = Listed files →
  answer_confirm O (df_name chosen) = true →
  last (events_since st mid) = Some (EvError (MsgRestoreFailed err)) →
  fin.1 = Returned tt ∧
  exitCode fin.2 = Some 1 ∧
  exit_status fin = 1 ∧
  events_since st fin.2 = events_since st mid ++ events_since mid fin.2 ∧
  count is_cleanup_start (events_since st mid) = 0%nat ∧
  count is_cleanup_start (events_since mid fin.2) = 1%nat ∧
  head (events_since mid fin.2) = Some (EvLog MsgCleaningUp) ∧
  exists_checks (events_since mid fin.2) =
    List.filter Js.truthy (df_name chosen :: unpacked_paths (events_since st mid)) ∧
  Forall (fun p => p ∈ fs mid) (unlink_attempts (events_since mid fin.2)).
Proof.
  intros files chosen mid fin Hlist Hconfirm Hlast.
  destruct (runRestoreProcess_shape O cfg st)
    as (Hsplit & Hc & _ & _ & _ & Hexit & _ & Hend).
  fold mid fin in Hsplit, Hc, Hexit, Hend.
  assert (exitCode mid = Some 1 ∧
          restore_registered mid =
            List.filter Js.truthy (df_name chosen :: unpacked_paths (events_since st mid)) ∧
          (restoreStages O cfg (restore_entry st)).1 = Returned tt)
    as (Hcode & Hreg & Halive).
  { revert Hlast. clear Hsplit Hc Hexit Hend. subst mid fin.
    unfold restore_registered. unfold_program. cbn. rewrite Hlist. cbn -[nth].
    fold files. fold chosen. rewrite Hconfirm. cbn. simpl_locals.
    restore_cases O.
    all: erewrite events_since_app by (cbn; rewrite <- !app_assoc; reflexivity).
    all: cbn; simpl_locals; intros Hlast; try discriminate Hlast.
    all: by repeat split. }
  destruct Hend as [(Hret & _ & Hclean)|(e & Hdead & _)].
  2:{ exfalso. unfold fin in Hdead. rewrite runRestoreProcess_unfold in Hdead.
      destruct (restoreStages O cfg (restore_entry st)) as [outcome mid'].
      cbn in Halive. subst outcome. discriminate Hdead. }
  rewrite Hclean, cleanup_start_once. cbn [exists_checks].
  rewrite cleanup_events_exists_checks.
  clearbody fin mid. destruct fin as [outcome final]. cbn [fst snd] in *. subst outcome.
  unfold exit_status. rewrite Hexit, Hcode.
  split_and!;
    first [done | by rewrite Hsplit, Hclean | apply cleanup_attempts_present].
Qed.

(** C2. On a truncated archive the code leaves the extracted dump behind:
    the user confirms, the download succeeds, the unpacking writes the
    dump in part and then fails.  The stages end with the failure message
    and the dump exists, but the path of the dump was never registered:
    only the archive is handed to [cleanup], which is not the set of
    artifacts the run created, and the dump is still in the directory when
    the run is over.  The message of a successful unpacking is still to
    come then, from the [close] that follows the error. *)
Theorem restore_cleanup_misses_partial_dump :
  answer_confirm Examples.truncated_archive Examples.second_name = true ∧
  last (events_since (initial ∅)
          (restore_mid Examples.truncated_archive Examples.cfg (initial ∅))) =
    Some (EvError (MsgRestoreFailed "FILE_ENDED")) ∧
  ¬ restore_cleanup_tracks_created Examples.truncated_archive Examples.cfg
      (initial ∅) Examples.second_name ∧
  exists_checks
    (events_since (initial ∅)
       (runRestoreProcess Examples.truncated_archive Examples.cfg (initial ∅)).2) =
    [Examples.second_name] ∧
  elements (fs (runRestoreProcess Examples.truncated_archive Examples.cfg (initial ∅)).2) =
    ["backup-shop-2024-01-02T00-00-00-000Z.sql"] ∧
  deferred (runRestoreProcess Examples.truncated_archive Examples.cfg (initial ∅)).2 =
    [LateLog (MsgUnzipped "backup-shop-2024-01-02T00-00-00-000Z.sql")].
Proof.
  split; [reflexivity|]. split; [reflexivity|]. split; [|split; [|split]].
  - unfold restore_cleanup_tracks_created. vm_compute. intros H. discriminate H.
  - vm_compute. reflexivity.
  - vm_compute. reflexivity.
  - vm_compute. reflexivity.
Qed.

(** X20. [downloadFileFromDrive] creates the write stream on its
    destination before it asks Drive for the content.  In a restore run
    that the user confirmed and that no stream error kills, the name of
    the archive is registered before the download is called: whether the
    download then succeeds or fails, [cleanup] is given that path first,
    and attempts to delete it if its file exists by then. *)
Theorem download_registers_destination_first (O : Oracle) (cfg : Config) (st : State)
    (first : DriveFile) (rest : list DriveFile) :
  let files := first :: rest in
  let chosen := nth (answer_list O files) files first in
  let mid := restore_mid O cfg st in
  let fin := runRestoreProcess O cfg st in
  drive_list O = Listed files →
  answer_confirm O (df_name chosen) = true →
  df_name chosen ≠ "" →
  fin.1 = Returned tt →
  (∀ (fileId fileName : string) (st1 : State),
     take 3 (events_since st1 (downloadFileFromDrive O fileId fileName st1).2) =
       [EvLog (MsgDownloading fileName); EvCreateWriteStream fileName; EvDriveGet fileId]) ∧
  take 7 (events_since st mid) =
    [EvLog MsgListing; EvDriveList (listQuery cfg) "createdTime desc" 20;
     EvPromptList files; EvPromptConfirm (df_name chosen) (DB_NAME cfg) false;
     EvLog (MsgDownloading (df_name chosen)); EvCreateWriteStream (df_name chosen);
     EvDriveGet (df_id chosen)] ∧
  head (exists_checks (events_since mid fin.2)) = Some (df_name chosen) ∧
  (df_name chosen ∈ fs mid → df_name chosen ∈ unlink_attempts (events_since mid fin.2)).
Proof.
  intros files chosen mid fin Hlist Hconfirm Hname Halive.
  split.
  { intros fileId fileName st1. unfold_program. cbn.
    destruct (drive_get O fileId) as [?|?| |? []]; cbn;
      [destruct (fs_open_late O fileName); cbn| | | |].
    all: erewrite events_since_app by (cbn; rewrite <- !app_assoc; reflexivity).
    all: reflexivity. }
  destruct (runRestoreProcess_shape O cfg st) as (_ & _ & _ & _ & _ & _ & _ & Hend).
  fold mid fin in Hend.
  destruct Hend as [(_ & _ & Hclean)|(e & Hdead & _)]; [|congruence].
  assert (take 7 (events_since st mid) =
            [EvLog MsgListing; EvDriveList (listQuery cfg) "createdTime desc" 20;
             EvPromptList files; EvPromptConfirm (df_name chosen) (DB_NAME cfg) false;
             EvLog (MsgDownloading (df_name chosen)); EvCreateWriteStream (df_name chosen);
             EvDriveGet (df_id chosen)] ∧
          head (restore_registered mid) = Some (df_name chosen)) as (Hevs & Hreg).
  { clear Hclean Halive. subst mid fin. subst files.
    remember (nth (answer_list O (first :: rest)) (first :: rest) first) as picked eqn:Hpicked.
    subst chosen.
    unfold restore_registered. unfold_program. cbn -[Js.truthy nth].
    rewrite Hlist. cbn -[nth Js.truthy].
    rewrite <- !Hpicked, Hconfirm. clear Hpicked.
    cbn -[Js.truthy]. simpl_locals.
    assert (Js.truthy (df_name picked) = true) as Htruthy
      by (destruct (df_name picked); done).
    restore_cases O.
    all: erewrite events_since_app by (cbn; rewrite <- !app_assoc; reflexivity).
    all: cbn -[Js.truthy]; simpl_locals; cbn -[Js.truthy]; rewrite ?Htruthy.
    all: by split_and!. }
  rewrite Hclean. cbn [exists_checks unlink_attempts].
  rewrite cleanup_events_exists_checks.
  split_and!; try done.
  intros Hzip. apply cleanup_events_unlink_complete; [|done].
  destruct (restore_registered mid); [done|]. cbn in Hreg. set_solver.
Qed.

(** C10. The file of the downloaded archive does not exist when the
    download fails at once.  When the request is rejected while the open
    of the write stream is still pending, the restore fails and [cleanup]
    is given the path of the archive, but it finds no file there and
    attempts no deletion; the file is created when the pending open
    completes, after the run, and stays in the directory. *)
Theorem download_rejected_at_once_leaves_archive (O : Oracle) (cfg : Config) (st : State)
    (first : DriveFile) (rest : list DriveFile) (err : string) :
  let files := first :: rest in
  let chosen := nth (answer_list O files) files first in
  let fin := runRestoreProcess O cfg st in
  drive_list O = Listed files →
  answer_confirm O (df_name chosen) = true →
  drive_get O (df_id chosen) = GetRejected err →
  fs_open_late O (df_name chosen) = true →
  df_name chosen ≠ "" →
  df_name chosen ∉ fs st →
  deferred st = [] →
  fin.1 = Returned tt ∧
  events_since st fin.2 =
    [EvLog MsgListing; EvDriveList (listQuery cfg) "createdTime desc" 20;
     EvPromptList files; EvPromptConfirm (df_name chosen) (DB_NAME cfg) false;
     EvLog (MsgDownloading (df_name chosen)); EvCreateWriteStream (df_name chosen);
     EvDriveGet (df_id chosen); EvError (MsgRestoreFailed err);
     EvLog MsgCleaningUp; EvExistsSync (df_name chosen)] ∧
  unlink_attempts (events_since st fin.2) = [] ∧
  (df_name chosen ∉ fs fin.2) ∧
  deferred fin.2 = [LateCreate (df_name chosen)] ∧
  df_name chosen ∈ fs (drain fin.2).2.
Proof.
  intros files chosen fin Hlist Hconfirm Hget Hlate Hname Hfresh Hnone.
  subst fin files.
  remember (nth (answer_list O (first :: rest)) (first :: rest) first) as picked eqn:Hpicked.
  subst chosen.
  assert (Js.truthy (df_name picked) = true) as Htruthy
    by (destruct (df_name picked); done).
  rewrite runRestoreProcess_unfold.
  unfold after_cleanup, restore_registered, drain. unfold_program. cbn -[Js.truthy nth].
  rewrite Hlist. cbn -[nth Js.truthy].
  rewrite <- !Hpicked, Hconfirm. clear Hpicked.
  cbn -[Js.truthy]. simpl_locals. rewrite Hget. cbn -[Js.truthy].
  rewrite Hlate. cbn -[Js.truthy]. simpl_locals. cbn -[Js.truthy].
  rewrite Htruthy, Hnone. cbn. rewrite bool_decide_eq_false_2 by done. cbn.
  erewrite events_since_app by (cbn [trace]; rewrite <- ?app_assoc; reflexivity).
  split_and!; try done. set_solver.
Qed.

(** ** The dump stage *)

(** C6. When the dump command ends with an error, [dumpDatabase] reports
    it on the console with the text the tool wrote on stderr, the backup
    run logs the failure and sets the exit code to 1, and it goes straight
    to cleanup: no write stream is opened for the archive, nothing is
    packed, nothing is uploaded. *)
Theorem dump_failure_short_circuits (O : Oracle) (cfg : Config) (st : State)
    (reason : string) :
  let dumpFile := backupDumpFile O cfg in
  let result := child_exec O (dumpCommand cfg dumpFile) (fs st) in
  let mid := (backupStages O cfg st).2 in
  let fin := runBackupProcess O cfg st in
  ex_error result = Some reason →
  events_since st mid =
    [EvLog (MsgCreatingDump (DB_NAME cfg)); EvExec (dumpCommand cfg dumpFile);
     EvError (MsgDumpFailed (ex_stderr result));
     EvError (MsgBackupFailed ("Database dump failed: " +:+ reason))] ∧
  ex_stderr result ∈ render (MsgDumpFailed (ex_stderr result)) ∧
  fin.1 = Returned tt ∧
  exitCode fin.2 = Some 1 ∧
  exit_status fin = 1 ∧
  count is_pack_or_upload (events_since st fin.2) = 0%nat.
Proof.
  intros dumpFile result mid fin Herr.
  assert (backupStages O cfg st =
          (Returned tt,
           {| fs := fs st ∪ list_to_set (ex_written result);
              trace := trace st ++
                [EvLog (MsgCreatingDump (DB_NAME cfg)); EvExec (dumpCommand cfg dumpFile);
                 EvError (MsgDumpFailed (ex_stderr result));
                 EvError (MsgBackupFailed ("Database dump failed: " +:+ reason))];
              exitCode := Some 1; locals := locals st; deferred := deferred st |}))
    as Hstages.
  { unfold_program. cbn. fold dumpFile. fold result. rewrite Herr. cbn.
    rewrite <- !app_assoc. reflexivity. }
  subst fin mid. rewrite runBackupProcess_unfold, Hstages. unfold after_cleanup.
  cbn [fst snd fs trace exitCode locals exit_status default from_option].
  erewrite !events_since_app by (cbn [trace]; rewrite <- ?app_assoc; reflexivity).
  split_and!; try done.
  - cbn. set_solver.
  - rewrite count_app.
    change (EvLog MsgCleaningUp :: ?l) with ([EvLog MsgCleaningUp] ++ l).
    rewrite count_app, cleanup_events_count; done.
Qed.

(** ** The password *)

Lemma checkRequired_delete_password (vars : list string) (penv : gmap string string) :
  "DB_PASSWORD" ∉ vars →
  checkRequired vars (delete "DB_PASSWORD" penv) = checkRequired vars penv.
Proof.
  induction vars as [|v vars IH]; [done|]. intros Hnotin. cbn.
  rewrite lookup_delete_ne by set_solver. rewrite IH by set_solver. done.
Qed.

(** C5. A configuration whose password is set but empty is accepted, and
    then the dump command and the import command carry no [-p] argument
    at all: between the user and the database name there are only the two
    separating spaces.  These are the commands the two operations hand to
    the shell.  A configuration without the variable is refused at
    startup, the same one less its password included, so that unset and
    empty are told apart. *)
Theorem empty_password_omits_flag (penv : gmap string string) :
  penv !! "DB_PASSWORD" = Some "" →
  checkRequired requiredEnvVars penv = None →
  (∃ cfg,
     loadConfig penv = inr cfg ∧
     DB_PASSWORD cfg = "" ∧
     passwordArg cfg = "" ∧
     (∀ dumpFile,
        dumpCommand cfg dumpFile =
        "mysqldump -h " +:+ DB_HOST cfg +:+ " -u " +:+ DB_USER cfg +:+ "  " +:+
        DB_NAME cfg +:+ " > " +:+ dumpFile) ∧
     (∀ sqlFile,
        importCommand cfg sqlFile =
        "mysql -h " +:+ DB_HOST cfg +:+ " -u " +:+ DB_USER cfg +:+ "  " +:+
        DB_NAME cfg +:+ " < " +:+ sqlFile) ∧
     (∀ O dumpFile st,
        take 2 (events_since st (dumpDatabase O cfg dumpFile st).2) =
        [EvLog (MsgCreatingDump (DB_NAME cfg));
         EvExec ("mysqldump -h " +:+ DB_HOST cfg +:+ " -u " +:+ DB_USER cfg +:+ "  " +:+
                 DB_NAME cfg +:+ " > " +:+ dumpFile)]) ∧
     (∀ O sqlFile st,
        take 2 (events_since st (importDatabase O cfg sqlFile st).2) =
        [EvLog (MsgRestoring sqlFile);
         EvExec ("mysql -h " +:+ DB_HOST cfg +:+ " -u " +:+ DB_USER cfg +:+ "  " +:+
                 DB_NAME cfg +:+ " < " +:+ sqlFile)])) ∧
  loadConfig (delete "DB_PASSWORD" penv) = inl (Js.mkError missingPasswordMessage) ∧
  (∀ penv' : gmap string string,
     penv' !! "DB_PASSWORD" = None → ∃ e, loadConfig penv' = inl e).
Proof.
  intros Hpw Hreq. split; [|split].
  - unfold loadConfig. rewrite Hreq, Hpw. eexists. split; [reflexivity|].
    assert (∀ c : Config, DB_PASSWORD c = "" → passwordArg c = "") as Harg.
    { intros c Hc. unfold passwordArg. by rewrite Hc. }
    split_and!; try done.
    + intros O dumpFile st. unfold_program. cbn.
      destruct (ex_error _); cbn;
        erewrite events_since_app by (cbn; rewrite <- !app_assoc; reflexivity); done.
    + intros O sqlFile st. unfold_program. cbn.
      destruct (ex_error _); cbn;
        erewrite events_since_app by (cbn; rewrite <- !app_assoc; reflexivity); done.
  - unfold loadConfig. rewrite checkRequired_delete_password, Hreq.
    + by rewrite lookup_delete_eq.
    + unfold requiredEnvVars. rewrite !elem_of_cons, elem_of_nil.
      intros H. repeat (destruct H as [H|H]; [discriminate H|]). done.
  - intros penv' Hnone. unfold loadConfig.
    destruct (checkRequired requiredEnvVars penv'); [by eexists|].
    rewrite Hnone. by eexists.
Qed.

(** ** The unpacked path *)

Lemma prefix_cons (a b : ascii) (p s : string) :
  String.prefix (String a p) (String b s) =
  if Ascii.ascii_dec a b then String.prefix p s else false.
Proof. reflexivity. Qed.

(** [.zip] cannot begin in [s] and end in the suffix appended to it. *)
Lemma prefix_zip_app (c0 : ascii) (s : string) :
  String.prefix ".zip" (String c0 s) = false →
  String.prefix ".zip" (String c0 s +:+ ".zip") = false.
Proof.
  change (String c0 s +:+ ".zip") with (String c0 (s +:+ ".zip")).
  rewrite !prefix_cons. destruct (Ascii.ascii_dec _ c0); [|done].
  destruct s as [|c1 s]; [done|].
  change (String c1 s +:+ ".zip") with (String c1 (s +:+ ".zip")).
  rewrite !prefix_cons. destruct (Ascii.ascii_dec _ c1); [|done].
  destruct s as [|c2 s]; [done|].
  change (String c2 s +:+ ".zip") with (String c2 (s +:+ ".zip")).
  rewrite !prefix_cons. destruct (Ascii.ascii_dec _ c2); [|done].
  destruct s as [|c3 s]; [done|].
  change (String c3 s +:+ ".zip") with (String c3 (s +:+ ".zip")).
  rewrite !prefix_cons. destruct (Ascii.ascii_dec _ c3); [|done].
  by destruct s.
Qed.

(** Where the archive name holds [.zip] only as its suffix, the
    replacement of line 144 does strip the suffix. *)
Lemma replace_zip_strips_plain_suffix (s : string) :
  Js.includes ".zip" s = false → Js.replace ".zip" "" (s +:+ ".zip") = s.
Proof.
  induction s as [|c s IH]; [done|].
  intros Hinc. cbn [Js.includes] in Hinc.
  destruct (String.prefix ".zip" (String c s)) eqn:Hpre; [done|].
  apply prefix_zip_app in Hpre.
  change (String c s +:+ ".zip") with (String c (s +:+ ".zip")) in *.
  cbn [Js.replace]. rewrite Hpre. by rewrite IH.
Qed.

(** C4. The path [unzipRestoreFile] returns is the archive name with its
    first [.zip] removed, which is not the suffix when the name holds
    another one: for the backup of a database called [my.zipdb] the
    function returns a path that still ends in [.zip] and that no file
    bears, where stripping the suffix gives the name of the dump. *)
Theorem unzipRestoreFile_inner_zip :
  (unzipRestoreFile Examples.inner_zip "backup-my.zipdb-2024-01-01T00-00-00-000Z.sql.zip"
     (initial ∅)).1
  = Returned "backup-mydb-2024-01-01T00-00-00-000Z.sql.zip" ∧
  ¬ unpack_strips_suffix Examples.inner_zip
      "backup-my.zipdb-2024-01-01T00-00-00-000Z.sql" (initial ∅).
Proof.
  split; [reflexivity|]. unfold unpack_strips_suffix. vm_compute. intros H. discriminate H.
Qed.

(** The restore of that backup: the unpacking writes the dump under its
    own name, the import is pointed at the path returned, which no file
    bears, and fails; [cleanup] deletes the archive and leaves the dump. *)
Example restore_inner_zip_leaves_dump :
  let fin := runRestoreProcess Examples.inner_zip Examples.cfg (initial ∅) in
  exitCode fin.2 = Some 1 ∧
  exists_checks (events_since (initial ∅) fin.2) =
    ["backup-my.zipdb-2024-01-01T00-00-00-000Z.sql.zip";
     "backup-mydb-2024-01-01T00-00-00-000Z.sql.zip"] ∧
  elements (fs fin.2) = ["backup-my.zipdb-2024-01-01T00-00-00-000Z.sql"].
Proof. vm_compute. done. Qed.

(** ** The value of a pack *)

(** C8, as the specification states it, fails: the promise of
    [zipFileFunc] is resolved without a value. *)
Lemma pack_returns_undefined :
  ¬ pack_returns_byte_count (Examples.happy ActBackup)
      "backup-shop-2024-01-01T00-00-00-000Z.sql"
      "backup-shop-2024-01-01T00-00-00-000Z.sql.zip" (initial ∅).
Proof.
  intros H. specialize (H 1234 eq_refl). vm_compute in H. discriminate H.
Qed.

(** C8, amended. A successful pack writes the byte count of the archive,
    [archive.pointer()], in its message of success and resolves with no
    value. *)
Theorem pack_logs_byte_count (O : Oracle) (dumpFile zipFile : string) (st : State)
    (pointer : Z) :
  archiver_zip O dumpFile zipFile (fs st ∪ list_to_set [zipFile]) = ArchiveClosed pointer →
  let r := zipFileFunc O dumpFile zipFile st in
  r.1 = Returned Js.Undefined ∧
  events_since st r.2 =
    [EvLog (MsgCompressing dumpFile); EvCreateWriteStream zipFile;
     EvArchive dumpFile dumpFile; EvLog (MsgCompressed zipFile pointer)] ∧
  render (MsgCompressed zipFile pointer) =
    ["✅ File compressed: " +:+ zipFile +:+ " (" +:+ pretty pointer +:+ " bytes)"].
Proof.
  intros Hzip r. subst r. unfold_program. cbn -[list_to_set]. rewrite Hzip. cbn.
  erewrite events_since_app by (cbn [trace]; rewrite <- ?app_assoc; reflexivity).
  done.
Qed.

(** ** The menu *)






Lemma late_fs_subseteq (ls : list Late) (present : gset string) :
  present ⊆ late_fs ls present.
Proof.
  revert present. induction ls as [|[path|m] ls IH]; intros present; cbn; [done| |done].
  etrans; [|apply IH]. set_solver.
Qed.





(** ** The theorems at concrete runs *)

(** A backup in which every stage succeeds, from an empty directory. *)
Lemma backup_cleanup_once_on_created_witness :
  (backupDumpFile (Examples.happy ActBackup) Examples.cfg ∉ fs (initial ∅)) ∧
  (backupZipFile (Examples.happy ActBackup) Examples.cfg ∉ fs (initial ∅)) ∧
  (runBackupProcess (Examples.happy ActBackup) Examples.cfg (initial ∅)).1 = Returned tt ∧
  count is_cleanup_start
    (events_since (backupStages (Examples.happy ActBackup) Examples.cfg (initial ∅)).2
       (runBackupProcess (Examples.happy ActBackup) Examples.cfg (initial ∅)).2) = 1%nat ∧
  unlink_attempts
    (events_since (backupStages (Examples.happy ActBackup) Examples.cfg (initial ∅)).2
       (runBackupProcess (Examples.happy ActBackup) Examples.cfg (initial ∅)).2) =
  List.filter
    (fun p => bool_decide
       (p ∈ fs (backupStages (Examples.happy ActBackup) Examples.cfg (initial ∅)).2
            ∖ fs (initial ∅)))
    [backupDumpFile (Examples.happy ActBackup) Examples.cfg;
     backupZipFile (Examples.happy ActBackup) Examples.cfg].
Proof.
  assert (backupDumpFile (Examples.happy ActBackup) Examples.cfg ∉ fs (initial ∅)) as Hdump
    by apply not_elem_of_empty.
  assert (backupZipFile (Examples.happy ActBackup) Examples.cfg ∉ fs (initial ∅)) as Hzip
    by apply not_elem_of_empty.
  assert ((runBackupProcess (Examples.happy ActBackup) Examples.cfg (initial ∅)).1 =
          Returned tt) as Halive by (vm_compute; reflexivity).
  destruct (backup_cleanup_once_on_created (Examples.happy ActBackup) Examples.cfg
              (initial ∅) Hdump Hzip Halive) as (_ & _ & Honce & _ & _ & Hexact & _).
  exact (conj Hdump (conj Hzip (conj Halive (conj Honce Hexact)))).
Defined.

(** A backup in which the disk fills up while the archive is written. *)
Lemma backup_output_error_skips_cleanup_witness :
  ex_error (child_exec Scenarios.disk_full
              (dumpCommand Examples.cfg (backupDumpFile Scenarios.disk_full Examples.cfg))
              (fs (initial ∅))) = None ∧
  (runBackupProcess Scenarios.disk_full Examples.cfg (initial ∅)).1 =
    Crashed (Js.mkError "ENOSPC") ∧
  count is_cleanup_start
    (events_since (initial ∅)
       (runBackupProcess Scenarios.disk_full Examples.cfg (initial ∅)).2) = 0%nat ∧
  exit_status (runBackupProcess Scenarios.disk_full Examples.cfg (initial ∅)) = 1.
Proof.
  assert (ex_error (child_exec Scenarios.disk_full
                      (dumpCommand Examples.cfg
                         (backupDumpFile Scenarios.disk_full Examples.cfg))
                      (fs (initial ∅))) = None) as Hdump by (vm_compute; reflexivity).
  destruct (backup_output_error_skips_cleanup Scenarios.disk_full Examples.cfg (initial ∅)
              "ENOSPC" true Hdump eq_refl) as (Hdead & _ & Hnone & _ & _ & Hstatus).
  exact (conj Hdump (conj Hdead (conj Hnone Hstatus))).
Defined.

(** A restore whose archive is truncated: the unpacking fails. *)
Lemma restore_failure_cleanup_witness :
  drive_list Examples.truncated_archive = Listed Examples.remote ∧
  answer_confirm Examples.truncated_archive Examples.second_name = true ∧
  last (events_since (initial ∅)
          (restore_mid Examples.truncated_archive Examples.cfg (initial ∅))) =
    Some (EvError (MsgRestoreFailed "FILE_ENDED")) ∧
  exitCode (runRestoreProcess Examples.truncated_archive Examples.cfg (initial ∅)).2 = Some 1 ∧
  exists_checks
    (events_since (restore_mid Examples.truncated_archive Examples.cfg (initial ∅))
       (runRestoreProcess Examples.truncated_archive Examples.cfg (initial ∅)).2) =
  [Examples.second_name].
Proof.
  assert (last (events_since (initial ∅)
                  (restore_mid Examples.truncated_archive Examples.cfg (initial ∅))) =
          Some (EvError (MsgRestoreFailed "FILE_ENDED"))) as Hlast by reflexivity.
  destruct (restore_failure_cleanup Examples.truncated_archive Examples.cfg (initial ∅)
              (mkDriveFile "id3" "backup-shop-2024-01-03T00-00-00-000Z.sql.zip"
                 "2024-01-03T00:00:00.000Z")
              (tail Examples.remote) "FILE_ENDED" eq_refl eq_refl Hlast)
    as (_ & Hcode & _ & _ & _ & _ & _ & Hchecks & _).
  exact (conj eq_refl (conj eq_refl (conj Hlast (conj Hcode Hchecks)))).
Defined.

(** A restore that the user declines at the confirmation. *)
Lemma restore_declined_witness :
  drive_list Examples.declined = Listed Examples.remote ∧
  answer_confirm Examples.declined Examples.second_name = false ∧
  unlink_attempts
    (events_since (initial ∅)
       (runRestoreProcess Examples.declined Examples.cfg (initial ∅)).2) = [] ∧
  exit_status (runRestoreProcess Examples.declined Examples.cfg (initial ∅)) = 0.
Proof.
  destruct (restore_declined Examples.declined Examples.cfg (initial ∅)
              (mkDriveFile "id3" "backup-shop-2024-01-03T00-00-00-000Z.sql.zip"
                 "2024-01-03T00:00:00.000Z")
              (tail Examples.remote) eq_refl eq_refl)
    as (_ & _ & _ & _ & Hunlink & _ & _ & Hstatus).
  exact (conj eq_refl (conj eq_refl (conj Hunlink Hstatus))).
Defined.

(** A configuration whose password is set to the empty string. *)
Lemma empty_password_omits_flag_witness :
  Examples.penv !! "DB_PASSWORD" = Some "" ∧
  checkRequired requiredEnvVars Examples.penv = None ∧
  loadConfig Examples.penv = inr Examples.cfg ∧
  loadConfig (delete "DB_PASSWORD" Examples.penv) = inl (Js.mkError missingPasswordMessage).
Proof.
  assert (Examples.penv !! "DB_PASSWORD" = Some "") as Hpw by (vm_compute; reflexivity).
  assert (checkRequired requiredEnvVars Examples.penv = None) as Hreq
    by (vm_compute; reflexivity).
  destruct (empty_password_omits_flag Examples.penv Hpw Hreq) as (_ & Hunset & _).
  refine (conj Hpw (conj Hreq (conj _ Hunset))).
  vm_compute; reflexivity.
Defined.

(** A backup whose dump is refused by the server. *)
Lemma dump_failure_short_circuits_witness :
  ex_error (child_exec Examples.dump_denied
              (dumpCommand Examples.cfg (backupDumpFile Examples.dump_denied Examples.cfg))
              (fs (initial ∅))) =
    Some ("Command failed: mysqldump -h localhost -u root  shop > backup-shop-2024-01-01T00-00-00-000Z.sql"
          +:+ nl +:+ "Access denied") ∧
  exit_status (runBackupProcess Examples.dump_denied Examples.cfg (initial ∅)) = 1 ∧
  count is_pack_or_upload
    (events_since (initial ∅)
       (runBackupProcess Examples.dump_denied Examples.cfg (initial ∅)).2) = 0%nat.
Proof.
  destruct (dump_failure_short_circuits Examples.dump_denied Examples.cfg (initial ∅)
              _ eq_refl) as (_ & _ & _ & _ & Hstatus & Hnone).
  exact (conj eq_refl (conj Hstatus Hnone)).
Defined.

(** A restore from a folder that holds no backup. *)
Lemma restore_nothing_listed_witness :
  drive_list Examples.nothing_listed = Listed [] ∧
  count is_prompt
    (events_since (initial ∅)
       (runRestoreProcess Examples.nothing_listed Examples.cfg (initial ∅)).2) = 0%nat ∧
  fs (runRestoreProcess Examples.nothing_listed Examples.cfg (initial ∅)).2 = fs (initial ∅).
Proof.
  destruct (restore_nothing_listed Examples.nothing_listed Examples.cfg (initial ∅) eq_refl)
    as (_ & _ & Hprompt & _ & _ & Hfs & _).
  exact (conj eq_refl (conj Hprompt Hfs)).
Defined.

(** A pack that closes after 1234 bytes. *)
Lemma pack_logs_byte_count_witness :
  archiver_zip (Examples.happy ActBackup) "dump.sql" "dump.sql.zip"
    (fs (initial ∅) ∪ list_to_set ["dump.sql.zip"]) = ArchiveClosed 1234 ∧
  (zipFileFunc (Examples.happy ActBackup) "dump.sql" "dump.sql.zip" (initial ∅)).1 =
    Returned Js.Undefined ∧
  events_since (initial ∅)
    (zipFileFunc (Examples.happy ActBackup) "dump.sql" "dump.sql.zip" (initial ∅)).2 =
  [EvLog (MsgCompressing "dump.sql"); EvCreateWriteStream "dump.sql.zip";
   EvArchive "dump.sql" "dump.sql"; EvLog (MsgCompressed "dump.sql.zip" 1234)].
Proof.
  destruct (pack_logs_byte_count (Examples.happy ActBackup) "dump.sql" "dump.sql.zip"
              (initial ∅) 1234 eq_refl) as (Hvalue & Hevents & _).
  exact (conj eq_refl (conj Hvalue Hevents)).
Defined.

(** A restore whose download request is refused. *)
Lemma download_registers_destination_first_witness :
  drive_list Examples.download_refused = Listed Examples.remote ∧
  answer_confirm Examples.download_refused Examples.second_name = true ∧
  Examples.second_name ≠ "" ∧
  (runRestoreProcess Examples.download_refused Examples.cfg (initial ∅)).1 = Returned tt ∧
  head (exists_checks
          (events_since (restore_mid Examples.download_refused Examples.cfg (initial ∅))
             (runRestoreProcess Examples.download_refused Examples.cfg (initial ∅)).2)) =
    Some Examples.second_name.
Proof.
  assert (Examples.second_name ≠ "") as Hname by discriminate.
  assert ((runRestoreProcess Examples.download_refused Examples.cfg (initial ∅)).1 =
          Returned tt) as Halive by (vm_compute; reflexivity).
  destruct (download_registers_destination_first Examples.download_refused Examples.cfg
              (initial ∅)
              (mkDriveFile "id3" "backup-shop-2024-01-03T00-00-00-000Z.sql.zip"
                 "2024-01-03T00:00:00.000Z")
              (tail Examples.remote) eq_refl eq_refl Hname Halive)
    as (_ & _ & Hhead & _).
  exact (conj eq_refl (conj eq_refl (conj Hname (conj Halive Hhead)))).
Defined.

(** A restore whose download request is rejected while the open of the
    write stream is pending. *)
Lemma download_rejected_at_once_leaves_archive_witness :
  drive_list Scenarios.rejected_at_once = Listed Examples.remote ∧
  answer_confirm Scenarios.rejected_at_once Examples.second_name = true ∧
  drive_get Scenarios.rejected_at_once "id2" = GetRejected "invalid_grant" ∧
  fs_open_late Scenarios.rejected_at_once Examples.second_name = true ∧
  Examples.second_name ≠ "" ∧
  (Examples.second_name ∉ fs (initial ∅)) ∧
  deferred (initial ∅) = [] ∧
  unlink_attempts
    (events_since (initial ∅)
       (runRestoreProcess Scenarios.rejected_at_once Examples.cfg (initial ∅)).2) = [] ∧
  Examples.second_name ∈
    fs (drain (runRestoreProcess Scenarios.rejected_at_once Examples.cfg (initial ∅)).2).2.
Proof.
  assert (Examples.second_name ≠ "") as Hname by discriminate.
  assert (Examples.second_name ∉ fs (initial ∅)) as Hfresh by apply not_elem_of_empty.
  destruct (download_rejected_at_once_leaves_archive Scenarios.rejected_at_once
              Examples.cfg (initial ∅) Scenarios.newest (tail Examples.remote)
              "invalid_grant" eq_refl eq_refl eq_refl eq_refl Hname Hfresh eq_refl)
    as (_ & _ & Hunlink & _ & _ & Hleft).
  exact (conj eq_refl (conj eq_refl (conj eq_refl (conj eq_refl
           (conj Hname (conj Hfresh (conj eq_refl (conj Hunlink Hleft)))))))).
Defined.

(** * Further properties *)

(** ** Validation of the environment *)

Lemma checkRequired_None (vars : list string) (penv : gmap string string) :
  checkRequired vars penv = None ↔
  ∀ v, v ∈ vars → Js.falsy_env (penv !! v) = false.
Proof.
  induction vars as [|x vars IH]; cbn.
  - split; [|done]. intros _ v Hv. by apply elem_of_nil in Hv.
  - destruct (Js.falsy_env (penv !! x)) eqn:Hx.
    + split; [done|]. intros H. specialize (H x (list_elem_of_here _ _)). congruence.
    + rewrite IH. split.
      * intros H v [->|Hv]%elem_of_cons; [done|]. by apply H.
      * intros H v Hv. apply H. by apply list_elem_of_further.
Qed.

Lemma falsy_env_false (v : option string) :
  Js.falsy_env v = false ↔ ∃ s, v = Some s ∧ s ≠ "".
Proof.
  destruct v as [[|c rest]|]; cbn; split; try done.
  - intros (t & [= <-] & Ht). done.
  - intros _. by eexists.
  - intros (t & [=] & _).
Qed.

(** X1. The environment is accepted exactly when each of the six required
    variables is set to a non-empty string and [DB_PASSWORD] is set, be it
    to the empty string; the configuration then holds the values of the
    environment. *)
Theorem loadConfig_accepts_iff (penv : gmap string string) :
  ((∃ cfg, loadConfig penv = inr cfg) ↔
   (∀ v, v ∈ requiredEnvVars → ∃ s, penv !! v = Some s ∧ s ≠ "") ∧
   is_Some (penv !! "DB_PASSWORD")) ∧
  (∀ cfg, loadConfig penv = inr cfg →
     penv !! "DB_HOST" = Some (DB_HOST cfg) ∧
     penv !! "DB_USER" = Some (DB_USER cfg) ∧
     penv !! "DB_PASSWORD" = Some (DB_PASSWORD cfg) ∧
     penv !! "DB_NAME" = Some (DB_NAME cfg) ∧
     penv !! "GDRIVE_CLIENT_EMAIL" = Some (GDRIVE_CLIENT_EMAIL cfg) ∧
     penv !! "GDRIVE_PRIVATE_KEY" = Some (GDRIVE_PRIVATE_KEY cfg) ∧
     penv !! "GDRIVE_FOLDER_ID" = Some (GDRIVE_FOLDER_ID cfg)).
Proof.
  split.
  - unfold loadConfig. split.
    + intros [cfg Hcfg].
      destruct (checkRequired requiredEnvVars penv) eqn:Hreq; [done|].
      destruct (penv !! "DB_PASSWORD") eqn:Hpw; [|done].
      split; [|by eexists].
      intros v Hv. apply falsy_env_false. by apply (proj1 (checkRequired_None _ _) Hreq).
    + intros [Hreq [pw Hpw]].
      assert (checkRequired requiredEnvVars penv = None) as ->.
      { apply checkRequired_None. intros v Hv. apply falsy_env_false. by apply Hreq. }
      rewrite Hpw. by eexists.
  - intros cfg. unfold loadConfig.
    destruct (checkRequired requiredEnvVars penv) eqn:Hreq; [done|].
    destruct (penv !! "DB_PASSWORD") eqn:Hpw; [|done].
    intros [= <-]. cbn.
    assert (∀ v, v ∈ requiredEnvVars → penv !! v = Some (getenv penv v)) as Hget.
    { intros v Hv. apply (proj1 (checkRequired_None _ _) Hreq) in Hv.
      apply falsy_env_false in Hv as (value & Hvalue & _).
      unfold getenv. by rewrite Hvalue. }
    split_and!; try done; apply Hget; unfold requiredEnvVars; set_solver.
Qed.

(** X2. The loop over the required variables stops at the first one, in
    the order of the list, that is unset or empty, and the error names
    it. *)
Theorem checkRequired_names_first_missing (before after : list string) (v : string)
    (penv : gmap string string) :
  (∀ x, x ∈ before → Js.falsy_env (penv !! x) = false) →
  Js.falsy_env (penv !! v) = true →
  checkRequired (before ++ v :: after) penv =
  Some (Js.mkError ("Missing required environment variable: " +:+ v)).
Proof.
  intros Hbefore Hv. induction before as [|x before IH]; cbn.
  - by rewrite Hv.
  - rewrite Hbefore by apply list_elem_of_here.
    apply IH. intros y Hy. apply Hbefore. by apply list_elem_of_further.
Qed.

Lemma checkRequired_names_first_missing_witness :
  (∀ x, x ∈ ["DB_HOST"; "DB_USER"] →
        Js.falsy_env (delete "DB_NAME" Examples.penv !! x) = false) ∧
  Js.falsy_env (delete "DB_NAME" Examples.penv !! "DB_NAME") = true ∧
  checkRequired requiredEnvVars (delete "DB_NAME" Examples.penv) =
  Some (Js.mkError "Missing required environment variable: DB_NAME").
Proof.
  assert (∀ x, x ∈ ["DB_HOST"; "DB_USER"] →
               Js.falsy_env (delete "DB_NAME" Examples.penv !! x) = false) as Hbefore.
  { intros x Hx. apply list_elem_of_In in Hx.
    destruct Hx as [<-|[<-|[]]]; vm_compute; reflexivity. }
  assert (Js.falsy_env (delete "DB_NAME" Examples.penv !! "DB_NAME") = true) as Hv
    by (vm_compute; reflexivity).
  exact (conj Hbefore (conj Hv
    (checkRequired_names_first_missing ["DB_HOST"; "DB_USER"]
       ["GDRIVE_CLIENT_EMAIL"; "GDRIVE_PRIVATE_KEY"; "GDRIVE_FOLDER_ID"] "DB_NAME"
       (delete "DB_NAME" Examples.penv) Hbefore Hv))).
Defined.

(** X3. The module first calls [dotenv.config()], which reads [.env] and
    writes its own notice.  When, in the environment so completed, a
    required variable is unset or empty, or the password is unset, the
    module then throws at load: the call of [dotenv] is all that happened,
    none of the program's messages is printed, nothing is asked, no file
    is written, and the process ends with status 1. *)
Theorem main_rejects_bad_environment (O : Oracle) (penv : gmap string string) (st : State) :
  let env := dotenv_config O penv in
  (∃ v, v ∈ requiredEnvVars ∧ Js.falsy_env (env !! v) = true) ∨
  env !! "DB_PASSWORD" = None →
  ∃ e, (main O penv st).1 = Thrown e ∧
       loadConfig env = inl e ∧
       events_since st (main O penv st).2 = [EvDotenvConfig] ∧
       fs (main O penv st).2 = fs st ∧
       exit_status (main O penv st) = 1.
Proof.
  intros env Hbad.
  assert (∃ e, loadConfig env = inl e) as [e He].
  { unfold loadConfig. destruct (checkRequired requiredEnvVars env) eqn:Hreq; [by eexists|].
    destruct Hbad as [(v & Hv & Hfalsy)|Hpw].
    - apply (proj1 (checkRequired_None _ _) Hreq) in Hv. congruence.
    - rewrite Hpw. by eexists. }
  exists e. unfold main, bind, emit. fold env. rewrite He. cbn.
  erewrite events_since_app by reflexivity. done.
Qed.

(** The host is left empty in [.env], and the environment sets nothing. *)
Lemma main_rejects_bad_environment_witness :
  ((∃ v, v ∈ requiredEnvVars ∧
         Js.falsy_env (dotenv_config Scenarios.from_dotenv ∅ !! v) = true) ∨
   dotenv_config Scenarios.from_dotenv ∅ !! "DB_PASSWORD" = None) ∧
  ∃ e, (main Scenarios.from_dotenv ∅ (initial ∅)).1 = Thrown e ∧
       loadConfig (dotenv_config Scenarios.from_dotenv ∅) = inl e ∧
       events_since (initial ∅) (main Scenarios.from_dotenv ∅ (initial ∅)).2 =
         [EvDotenvConfig] ∧
       fs (main Scenarios.from_dotenv ∅ (initial ∅)).2 = fs (initial ∅) ∧
       exit_status (main Scenarios.from_dotenv ∅ (initial ∅)) = 1.
Proof.
  assert ((∃ v, v ∈ requiredEnvVars ∧
                Js.falsy_env (dotenv_config Scenarios.from_dotenv ∅ !! v) = true) ∨
          dotenv_config Scenarios.from_dotenv ∅ !! "DB_PASSWORD" = None) as Hbad.
  { left. exists "DB_HOST". split; [apply list_elem_of_here | vm_compute; reflexivity]. }
  exact (conj Hbad
    (main_rejects_bad_environment Scenarios.from_dotenv ∅ (initial ∅) Hbad)).
Defined.

(** ** File names *)

Lemma prefix_empty (s : string) : String.prefix "" s = true.
Proof. by destruct s. Qed.

Lemma includes_char_cons (d c : ascii) (s : string) :
  Js.includes (String d "") (String c s) =
  if Ascii.ascii_dec d c then true else Js.includes (String d "") s.
Proof.
  cbn [Js.includes]. rewrite prefix_cons, prefix_empty.
  by destruct (Ascii.ascii_dec d c).
Qed.

(** X4. The time stamp of a backup keeps the length of the ISO date it
    is made from and holds neither a colon nor a dot; a date without
    them is left as it is. *)
Theorem replace_colon_dot_safe (s : string) :
  String.length (Js.replace_colon_dot s) = String.length s ∧
  Js.includes ":" (Js.replace_colon_dot s) = false ∧
  Js.includes "." (Js.replace_colon_dot s) = false ∧
  (Js.includes ":" s = false → Js.includes "." s = false → Js.replace_colon_dot s = s).
Proof.
  induction s as [|c s (IHlen & IHcolon & IHdot & IHid)]; [done|].
  cbn [Js.replace_colon_dot String.length]. rewrite !includes_char_cons, IHlen.
  destruct (Ascii.eqb_spec c ":") as [->|Hcolon]; cbn [orb].
  { split_and!; try done. }
  destruct (Ascii.eqb_spec c ".") as [->|Hdot]; cbn [orb].
  { split_and!; try done. }
  destruct (Ascii.ascii_dec ":" c) as [<-|_]; [done|].
  destruct (Ascii.ascii_dec "." c) as [<-|_]; [done|].
  split_and!; try done. intros H1 H2. by rewrite IHid.
Qed.

Lemma replace_colon_dot_dotless (s : string) :
  Js.includes "." (Js.replace_colon_dot s) = false.
Proof.
  induction s as [|c s IH]; [done|].
  cbn [Js.replace_colon_dot]. rewrite includes_char_cons, IH.
  destruct (Ascii.eqb_spec c ":") as [->|_]; [done|].
  destruct (Ascii.eqb_spec c ".") as [->|Hdot]; [done|].
  cbn [orb]. by destruct (Ascii.ascii_dec "." c).
Qed.

(** A text without a dot holds no [.zip], nor does its end take part in
    one. *)
Lemma includes_zip_after_dotless (a b : string) :
  Js.includes "." a = false → Js.includes ".zip" (a +:+ b) = Js.includes ".zip" b.
Proof.
  induction a as [|c a IH]; [done|].
  rewrite includes_char_cons. destruct (Ascii.ascii_dec "." c) as [|Hc]; [done|].
  intros Ha. change (String c a +:+ b) with (String c (a +:+ b)).
  cbn [Js.includes]. rewrite prefix_cons.
  destruct (Ascii.ascii_dec "." c); [done|]. by apply IH.
Qed.

(** No [.zip] begins in a text without one and ends after a dash that
    follows it. *)
Lemma includes_zip_before_dash (a b : string) :
  Js.includes ".zip" a = false →
  Js.includes ".zip" (a +:+ String "-" b) = Js.includes ".zip" b.
Proof.
  induction a as [|c a IH].
  - intros _. change ("" +:+ String "-" b) with (String "-" b).
    cbn [Js.includes]. by rewrite prefix_cons.
  - intros Ha. cbn [Js.includes] in Ha.
    destruct (String.prefix ".zip" (String c a)) eqn:Hpre; [done|].
    change (String c a +:+ String "-" b) with (String c (a +:+ String "-" b)).
    cbn [Js.includes].
    assert (String.prefix ".zip" (String c (a +:+ String "-" b)) = false) as ->;
      [|by apply IH].
    clear IH Ha. revert Hpre.
    rewrite !prefix_cons. destruct (Ascii.ascii_dec _ c); [|done].
    destruct a as [|c1 a]; [done|].
    change (String c1 a +:+ ?t) with (String c1 (a +:+ t)).
    rewrite !prefix_cons. destruct (Ascii.ascii_dec _ c1); [|done].
    destruct a as [|c2 a]; [done|].
    change (String c2 a +:+ ?t) with (String c2 (a +:+ t)).
    rewrite !prefix_cons. destruct (Ascii.ascii_dec _ c2); [|done].
    destruct a as [|c3 a]; [done|].
    change (String c3 a +:+ ?t) with (String c3 (a +:+ t)).
    rewrite !prefix_cons. destruct (Ascii.ascii_dec _ c3); [|done].
    by rewrite !prefix_empty.
Qed.

Lemma backupDumpFile_no_zip (O : Oracle) (cfg : Config) :
  Js.includes ".zip" (DB_NAME cfg) = false →
  Js.includes ".zip" (backupDumpFile O cfg) = false.
Proof.
  intros Hname. unfold backupDumpFile.
  rewrite (includes_zip_after_dotless "backup-") by reflexivity.
  change ("-" +:+ ?t) with (String "-" t).
  rewrite includes_zip_before_dash by done.
  rewrite includes_zip_after_dotless; [done|].
  apply replace_colon_dot_dotless.
Qed.

Lemma includes_of_prefix (pat s : string) :
  String.prefix pat s = true → Js.includes pat s = true.
Proof. intros H. destruct s; cbn [Js.includes]; by rewrite H. Qed.

Lemma prefix_app (p s : string) : String.prefix p (p +:+ s) = true.
Proof.
  induction p as [|c p IH]; [apply prefix_empty|].
  change (String c p +:+ s) with (String c (p +:+ s)). rewrite prefix_cons.
  by destruct (Ascii.ascii_dec c c).
Qed.

(** X5. The archive of a backup is named so that the listing of a restore
    finds it, its name holding [backup-], and, when the name of the
    database holds no [.zip], so that the restore derives from it the
    name of the dump it wraps: the path returned by a successful
    unpacking of the archive is the path the backup gave to its dump,
    which is also the name of the entry of the archive. *)
Theorem backup_names_round_trip (O : Oracle) (cfg : Config) :
  Js.includes ".zip" (DB_NAME cfg) = false →
  Js.includes "backup-" (backupZipFile O cfg) = true ∧
  Js.replace ".zip" "" (backupZipFile O cfg) = backupDumpFile O cfg ∧
  (∀ (R : Oracle) (st : State),
     uz_error (unzipper_extract R (backupZipFile O cfg) (fs st)) = None →
     (unzipRestoreFile R (backupZipFile O cfg) st).1 = Returned (backupDumpFile O cfg)) ∧
  (∀ st, EvArchive (backupDumpFile O cfg) (backupDumpFile O cfg) ∈
           events_since st (zipFileFunc O (backupDumpFile O cfg) (backupZipFile O cfg) st).2).
Proof.
  intros Hname.
  assert (Js.replace ".zip" "" (backupZipFile O cfg) = backupDumpFile O cfg) as Hstrip.
  { unfold backupZipFile. apply replace_zip_strips_plain_suffix.
    by apply backupDumpFile_no_zip. }
  split_and!; [|done| |].
  - apply includes_of_prefix.
    change (backupZipFile O cfg) with
      ("backup-" +:+ ((DB_NAME cfg +:+ "-" +:+ backupTimestamp O +:+ ".sql") +:+ ".zip")).
    apply prefix_app.
  - intros R st Hok.
    assert (∀ zipFile,
              uz_error (unzipper_extract R zipFile (fs st)) = None →
              (unzipRestoreFile R zipFile st).1 = Returned (Js.replace ".zip" "" zipFile))
      as Hreturn.
    { intros zipFile Hzip. unfold_program. cbn. by rewrite Hzip. }
    by rewrite Hreturn, Hstrip.
  - intros st. unfold_program. cbn.
    destruct (archiver_zip O _ _ _) as [?|?|? []]; cbn;
      erewrite events_since_app by (cbn [trace]; rewrite <- ?app_assoc; reflexivity);
      set_solver.
Qed.

Lemma backup_names_round_trip_witness :
  Js.includes ".zip" (DB_NAME Examples.cfg) = false ∧
  Js.replace ".zip" "" (backupZipFile (Examples.happy ActBackup) Examples.cfg) =
  backupDumpFile (Examples.happy ActBackup) Examples.cfg.
Proof.
  destruct (backup_names_round_trip (Examples.happy ActBackup) Examples.cfg eq_refl)
    as (_ & Hstrip & _).
  exact (conj eq_refl Hstrip).
Defined.

Lemma replace_absent (pat rep s : string) :
  Js.includes pat s = false → Js.replace pat rep s = s.
Proof.
  induction s as [|c s IH]; cbn [Js.includes Js.replace].
  - by destruct (String.prefix pat "").
  - destruct (String.prefix pat (String c s)); [done|]. intros H. by rewrite IH.
Qed.

(** X6. The path a successful unpacking returns: the archive name less
    its suffix when [.zip] occurs in the name as its suffix only, and the
    archive name itself when [.zip] does not occur in it, in which case
    the import is pointed at the archive. *)
Theorem unzipRestoreFile_returned_path (O : Oracle) (zipFile : string) (st : State) :
  uz_error (unzipper_extract O zipFile (fs st)) = None →
  (∀ stem, zipFile = stem +:+ ".zip" → Js.includes ".zip" stem = false →
     (unzipRestoreFile O zipFile st).1 = Returned stem) ∧
  (Js.includes ".zip" zipFile = false →
     (unzipRestoreFile O zipFile st).1 = Returned zipFile).
Proof.
  intros Hok.
  assert ((unzipRestoreFile O zipFile st).1 = Returned (Js.replace ".zip" "" zipFile)) as ->.
  { unfold_program. cbn. rewrite Hok. reflexivity. }
  split.
  - intros stem -> Hstem. by rewrite replace_zip_strips_plain_suffix.
  - intros Habsent. by rewrite replace_absent.
Qed.

Lemma unzipRestoreFile_returned_path_witness :
  uz_error (unzipper_extract Scenarios.restore_ok Examples.second_name (fs (initial ∅))) = None ∧
  (unzipRestoreFile Scenarios.restore_ok Examples.second_name (initial ∅)).1 =
  Returned "backup-shop-2024-01-02T00-00-00-000Z.sql".
Proof.
  destruct (unzipRestoreFile_returned_path Scenarios.restore_ok Examples.second_name
              (initial ∅) eq_refl) as (Hstem & _).
  exact (conj eq_refl (Hstem "backup-shop-2024-01-02T00-00-00-000Z.sql" eq_refl eq_refl)).
Defined.

(** ** What cleanup removes *)

Section CleanupFiles.

Variable O : Oracle.

Lemma cleanup_fs_other (files : list string) (present : gset string) (q : string) :
  q ∉ files → q ∈ present → q ∈ cleanup_fs O files present.
Proof.
  revert present. induction files as [|file rest IH]; intros present Hq Hin; [done|].
  apply not_elem_of_cons in Hq as [Hne Hq]. cbn.
  destruct (bool_decide (file ∈ present)); [destruct (fs_unlink_error O file)|];
    apply IH; set_solver.
Qed.

Lemma cleanup_fs_removed (files : list string) (present : gset string) (p : string) :
  p ∈ files → fs_unlink_error O p = None → p ∉ cleanup_fs O files present.
Proof.
  revert present. induction files as [|file rest IH]; intros present Hp Hok.
  - by apply elem_of_nil in Hp.
  - cbn. destruct (decide (p = file)) as [->|Hne].
    + destruct (bool_decide (file ∈ present)) eqn:Hin.
      * rewrite Hok. intros H. apply cleanup_fs_subseteq in H. set_solver.
      * apply bool_decide_eq_false in Hin. intros H. apply cleanup_fs_subseteq in H. done.
    + assert (p ∈ rest) by set_solver.
      destruct (bool_decide (file ∈ present)); [destruct (fs_unlink_error O file)|];
        by apply IH.
Qed.

Lemma cleanup_fs_kept (files : list string) (present : gset string) (p : string) :
  p ∈ present → is_Some (fs_unlink_error O p) → p ∈ cleanup_fs O files present.
Proof.
  revert present. induction files as [|file rest IH]; intros present Hp Hfail; [done|].
  cbn. destruct (bool_decide (file ∈ present)); [|by apply IH].
  destruct (fs_unlink_error O file) eqn:Hfile; [by apply IH|].
  apply IH; [|done]. destruct (decide (p = file)) as [->|Hne]; [|set_solver].
  rewrite Hfile in Hfail. by destruct Hfail.
Qed.

Lemma cleanup_fs_removed_by_unlink (files : list string) (present : gset string) (q : string) :
  q ∈ present → q ∉ cleanup_fs O files present →
  q ∈ unlink_attempts (cleanup_events O files present).
Proof.
  intros Hin Hout. apply cleanup_events_unlink_complete; [|done].
  destruct (decide (q ∈ files)); [done|]. by destruct Hout; apply cleanup_fs_other.
Qed.

End CleanupFiles.

(** X7. [cleanup] never throws and never touches the exit code, whatever
    [fs.unlinkSync] does.  It looks at each path it is given, in order.
    It creates nothing and leaves alone every file it was not given; a
    path it was given bears no file afterwards unless its deletion failed;
    a file whose deletion fails stays; and no file disappears other than
    through a deletion attempted on it. *)
Theorem cleanup_contained (O : Oracle) (files : list string) (st : State) :
  let r := cleanup O files st in
  r.1 = Returned tt ∧
  exitCode r.2 = exitCode st ∧
  exists_checks (events_since st r.2) = files ∧
  fs r.2 ⊆ fs st ∧
  (∀ q, q ∉ files → q ∈ fs st → q ∈ fs r.2) ∧
  (∀ p, p ∈ files → fs_unlink_error O p = None → p ∉ fs r.2) ∧
  (∀ p, p ∈ fs st → is_Some (fs_unlink_error O p) → p ∈ fs r.2) ∧
  (∀ q, q ∈ fs st → q ∉ fs r.2 → q ∈ unlink_attempts (events_since st r.2)).
Proof.
  intros r. subst r. rewrite cleanup_run. cbn [fst snd fs exitCode].
  rewrite (events_since_app st _ (EvLog MsgCleaningUp :: cleanup_events O files (fs st)))
    by reflexivity.
  cbn [exists_checks unlink_attempts].
  split_and!; try done.
  - apply cleanup_events_exists_checks.
  - apply cleanup_fs_subseteq.
  - intros q. apply cleanup_fs_other.
  - intros p. apply cleanup_fs_removed.
  - intros p. apply cleanup_fs_kept.
  - intros q. apply cleanup_fs_removed_by_unlink.
Qed.

(** X8. After a backup run that comes back, however its stages ended,
    neither the dump nor the archive is left in the directory, provided
    their deletion does not fail; every other file that was there before
    the run is still there.  A run that a stream error kills does not come
    back, and is not covered. *)
Theorem backup_leaves_no_artifact (O : Oracle) (cfg : Config) (st : State) :
  fs_unlink_error O (backupDumpFile O cfg) = None →
  fs_unlink_error O (backupZipFile O cfg) = None →
  let fin := runBackupProcess O cfg st in
  fin.1 = Returned tt →
  (backupDumpFile O cfg ∉ fs fin.2) ∧
  (backupZipFile O cfg ∉ fs fin.2) ∧
  (∀ q, q ∈ fs st → q ≠ backupDumpFile O cfg → q ≠ backupZipFile O cfg → q ∈ fs fin.2).
Proof.
  intros Hdump Hzip fin Halive. subst fin.
  rewrite runBackupProcess_outcome in Halive. rewrite (runBackupProcess_run _ _ _ Halive).
  cbn [snd fs after_cleanup].
  destruct (backupStages_run O cfg st) as (evs & mid & outcome & Hrun & _ & _ & Hfs & _).
  rewrite Hrun. cbn [snd].
  split_and!.
  - apply cleanup_fs_removed; [set_solver|done].
  - apply cleanup_fs_removed; [set_solver|done].
  - intros q Hq Hd Hz. apply cleanup_fs_other; set_solver.
Qed.

Lemma backup_leaves_no_artifact_witness :
  fs_unlink_error Scenarios.upload_fails (backupDumpFile Scenarios.upload_fails Examples.cfg) = None ∧
  fs_unlink_error Scenarios.upload_fails (backupZipFile Scenarios.upload_fails Examples.cfg) = None ∧
  (runBackupProcess Scenarios.upload_fails Examples.cfg (initial {["notes.txt"]})).1 =
    Returned tt ∧
  (backupDumpFile Scenarios.upload_fails Examples.cfg ∉
     fs (runBackupProcess Scenarios.upload_fails Examples.cfg (initial {["notes.txt"]})).2) ∧
  (backupZipFile Scenarios.upload_fails Examples.cfg ∉
     fs (runBackupProcess Scenarios.upload_fails Examples.cfg (initial {["notes.txt"]})).2).
Proof.
  assert ((runBackupProcess Scenarios.upload_fails Examples.cfg (initial {["notes.txt"]})).1 =
          Returned tt) as Halive by (vm_compute; reflexivity).
  destruct (backup_leaves_no_artifact Scenarios.upload_fails Examples.cfg
              (initial {["notes.txt"]}) eq_refl eq_refl Halive) as (Hdump & Hzip & _).
  exact (conj eq_refl (conj eq_refl (conj Halive (conj Hdump Hzip)))).
Defined.

(** ** The ways a backup ends *)

(** X9. A backup that reports its completion has done, in this order and
    nothing else: the dump, the pack of the dump into the archive under
    the name of the dump, and one upload of the archive, under its own
    name, into the configured folder as [application/zip]; the exit code
    is left as it was. *)
Theorem backup_completed_trace (O : Oracle) (cfg : Config) (st : State) :
  let dumpFile := backupDumpFile O cfg in
  let zipFile := backupZipFile O cfg in
  let mid := (backupStages O cfg st).2 in
  let fin := runBackupProcess O cfg st in
  EvLog MsgBackupCompleted ∈ events_since st mid →
  ∃ pointer fileId name link,
    drive_create O zipFile = Created fileId name link ∧
    events_since st mid =
      [EvLog (MsgCreatingDump (DB_NAME cfg)); EvExec (dumpCommand cfg dumpFile);
       EvLog MsgDumpCreated;
       EvLog (MsgCompressing dumpFile); EvCreateWriteStream zipFile;
       EvArchive dumpFile dumpFile; EvLog (MsgCompressed zipFile pointer);
       EvLog (MsgUploading zipFile); EvCreateReadStream zipFile;
       EvDriveCreate zipFile [GDRIVE_FOLDER_ID cfg] "application/zip";
       EvLog (MsgUploadSuccessful fileId name link);
       EvLog MsgBackupCompleted] ∧
    exitCode fin.2 = exitCode st.
Proof.
  intros dumpFile zipFile mid fin. subst fin. rewrite runBackupProcess_unfold.
  subst mid dumpFile zipFile.
  unfold_program. cbn.
  destruct (ex_error (child_exec O _ _)); cbn.
  { erewrite events_since_app by (cbn [trace]; rewrite <- ?app_assoc; reflexivity).
    intros H. mem_cases H. }
  destruct (archiver_zip O _ _ _) as [pointer|err|err []]; cbn.
  2,3,4: erewrite events_since_app by (cbn [trace]; rewrite <- ?app_assoc; reflexivity);
    intros H; mem_cases H.
  destruct (drive_create O _) as [fileId name link|err|err] eqn:Hcreate; cbn.
  2,3: erewrite events_since_app by (cbn [trace]; rewrite <- ?app_assoc; reflexivity);
    intros H; mem_cases H.
  erewrite events_since_app by (cbn [trace]; rewrite <- ?app_assoc; reflexivity).
  intros _. by exists pointer, fileId, name, link.
Qed.

Lemma backup_completed_trace_witness :
  EvLog MsgBackupCompleted ∈
    events_since (initial ∅) (backupStages (Examples.happy ActBackup) Examples.cfg (initial ∅)).2 ∧
  exitCode (runBackupProcess (Examples.happy ActBackup) Examples.cfg (initial ∅)).2 = None.
Proof.
  assert (EvLog MsgBackupCompleted ∈
            events_since (initial ∅)
              (backupStages (Examples.happy ActBackup) Examples.cfg (initial ∅)).2) as Hdone.
  { apply list_elem_of_In. vm_compute. repeat (first [left; reflexivity | right]). }
  destruct (backup_completed_trace (Examples.happy ActBackup) Examples.cfg (initial ∅) Hdone)
    as (pointer & fileId & name & link & _ & _ & Hcode).
  exact (conj Hdone Hcode).
Defined.

(** X10. When the archiver fails, the backup reports the failure with the
    message of the archiver, sets the exit code to 1 and goes to cleanup:
    the dump was made and the archive file was opened, but nothing is
    uploaded. *)
Theorem backup_pack_failure (O : Oracle) (cfg : Config) (st : State) (err : string) :
  let dumpFile := backupDumpFile O cfg in
  let zipFile := backupZipFile O cfg in
  let mid := (backupStages O cfg st).2 in
  let fin := runBackupProcess O cfg st in
  EvError (MsgCompressionFailed err) ∈ events_since st mid →
  events_since st mid =
    [EvLog (MsgCreatingDump (DB_NAME cfg)); EvExec (dumpCommand cfg dumpFile);
     EvLog MsgDumpCreated;
     EvLog (MsgCompressing dumpFile); EvCreateWriteStream zipFile;
     EvArchive dumpFile dumpFile; EvError (MsgCompressionFailed err);
     EvError (MsgBackupFailed ("Compression failed: " +:+ err))] ∧
  exitCode fin.2 = Some 1 ∧
  zipFile ∈ fs mid ∧
  zipFile ∈ unlink_attempts (events_since mid fin.2).
Proof.
  intros dumpFile zipFile mid fin Hfail.
  assert (events_since st mid =
            [EvLog (MsgCreatingDump (DB_NAME cfg)); EvExec (dumpCommand cfg dumpFile);
             EvLog MsgDumpCreated;
             EvLog (MsgCompressing dumpFile); EvCreateWriteStream zipFile;
             EvArchive dumpFile dumpFile; EvError (MsgCompressionFailed err);
             EvError (MsgBackupFailed ("Compression failed: " +:+ err))] ∧
          exitCode mid = Some 1 ∧ zipFile ∈ fs mid ∧
          (backupStages O cfg st).1 = Returned tt) as (Hevs & Hcode & Hzip & Halive).
  { revert Hfail. subst mid dumpFile zipFile. clear fin. unfold_program. cbn.
    destruct (ex_error (child_exec O _ _)); cbn.
    { erewrite events_since_app by (cbn [trace]; rewrite <- ?app_assoc; reflexivity).
      intros H. mem_cases H. }
    destruct (archiver_zip O _ _ _) as [pointer|err'|err' []]; cbn.
    2:{ erewrite events_since_app by (cbn [trace]; rewrite <- ?app_assoc; reflexivity).
        intros H. mem_cases H. injection H as ->. split_and!; [done|done|set_solver|done]. }
    2,3: erewrite events_since_app by (cbn [trace]; rewrite <- ?app_assoc; reflexivity);
      intros H; mem_cases H.
    destruct (drive_create O _); cbn;
      erewrite events_since_app by (cbn [trace]; rewrite <- ?app_assoc; reflexivity);
      intros H; mem_cases H. }
  subst fin. rewrite (runBackupProcess_run _ _ _ Halive).
  cbn [snd exitCode after_cleanup]. fold mid.
  rewrite (events_since_app mid _
             (EvLog MsgCleaningUp :: cleanup_events O [dumpFile; zipFile] (fs mid)))
    by reflexivity.
  cbn [unlink_attempts].
  split_and!; try done.
  apply cleanup_events_unlink_complete; [set_solver|done].
Qed.

Lemma backup_pack_failure_witness :
  EvError (MsgCompressionFailed "EACCES") ∈
    events_since (initial ∅) (backupStages Scenarios.pack_fails Examples.cfg (initial ∅)).2 ∧
  exitCode (runBackupProcess Scenarios.pack_fails Examples.cfg (initial ∅)).2 = Some 1.
Proof.
  assert (EvError (MsgCompressionFailed "EACCES") ∈
            events_since (initial ∅)
              (backupStages Scenarios.pack_fails Examples.cfg (initial ∅)).2) as Hfail.
  { apply list_elem_of_In. vm_compute. repeat (first [left; reflexivity | right]). }
  destruct (backup_pack_failure Scenarios.pack_fails Examples.cfg (initial ∅) "EACCES" Hfail)
    as (_ & Hcode & _).
  exact (conj Hfail Hcode).
Defined.

(** X11. When Drive rejects the upload, the backup fails with the message
    of the rejection, after the dump and the pack, and sets the exit code
    to 1; the archive that could not be sent is still handed to cleanup,
    which attempts to delete it. *)
Theorem backup_upload_failure (O : Oracle) (cfg : Config) (st : State) (err : string) :
  let zipFile := backupZipFile O cfg in
  let mid := (backupStages O cfg st).2 in
  let fin := runBackupProcess O cfg st in
  EvDriveCreate zipFile [GDRIVE_FOLDER_ID cfg] "application/zip" ∈ events_since st mid →
  drive_create O zipFile = CreateRejected err →
  last (events_since st mid) = Some (EvError (MsgBackupFailed err)) ∧
  count is_pipeline_failure (events_since st mid) = 1%nat ∧
  (EvLog MsgBackupCompleted ∉ events_since st mid) ∧
  exitCode fin.2 = Some 1 ∧
  zipFile ∈ unlink_attempts (events_since mid fin.2).
Proof.
  intros zipFile mid fin Hcall Hreject.
  assert (last (events_since st mid) = Some (EvError (MsgBackupFailed err)) ∧
          count is_pipeline_failure (events_since st mid) = 1%nat ∧
          (EvLog MsgBackupCompleted ∉ events_since st mid) ∧
          exitCode mid = Some 1 ∧ zipFile ∈ fs mid ∧
          (backupStages O cfg st).1 = Returned tt)
    as (Hlast & Hcount & Hnot & Hcode & Hzip & Halive).
  { revert Hcall. subst mid zipFile. clear fin. unfold_program. cbn.
    destruct (ex_error (child_exec O _ _)); cbn.
    { erewrite events_since_app by (cbn [trace]; rewrite <- ?app_assoc; reflexivity).
      intros H. mem_cases H. }
    destruct (archiver_zip O _ _ _) as [pointer|err'|err' []]; cbn.
    2,3,4: erewrite events_since_app by (cbn [trace]; rewrite <- ?app_assoc; reflexivity);
      intros H; mem_cases H.
    rewrite Hreject. cbn.
    erewrite events_since_app by (cbn [trace]; rewrite <- ?app_assoc; reflexivity).
    intros _. split_and!; try done; [|set_solver].
    intros H. mem_cases H. }
  subst fin. rewrite (runBackupProcess_run _ _ _ Halive).
  cbn [snd exitCode after_cleanup]. fold mid.
  rewrite (events_since_app mid _
             (EvLog MsgCleaningUp ::
                cleanup_events O [backupDumpFile O cfg; zipFile] (fs mid)))
    by reflexivity.
  cbn [unlink_attempts].
  split_and!; try done.
  apply cleanup_events_unlink_complete; [set_solver|done].
Qed.

Lemma backup_upload_failure_witness :
  EvDriveCreate (backupZipFile Scenarios.upload_fails Examples.cfg)
    [GDRIVE_FOLDER_ID Examples.cfg] "application/zip" ∈
    events_since (initial ∅) (backupStages Scenarios.upload_fails Examples.cfg (initial ∅)).2 ∧
  drive_create Scenarios.upload_fails (backupZipFile Scenarios.upload_fails Examples.cfg) =
    CreateRejected "storageQuotaExceeded" ∧
  exitCode (runBackupProcess Scenarios.upload_fails Examples.cfg (initial ∅)).2 = Some 1.
Proof.
  assert (EvDriveCreate (backupZipFile Scenarios.upload_fails Examples.cfg)
            [GDRIVE_FOLDER_ID Examples.cfg] "application/zip" ∈
          events_since (initial ∅)
            (backupStages Scenarios.upload_fails Examples.cfg (initial ∅)).2) as Hcall.
  { apply list_elem_of_In. vm_compute. repeat (first [left; reflexivity | right]). }
  destruct (backup_upload_failure Scenarios.upload_fails Examples.cfg (initial ∅)
              "storageQuotaExceeded" Hcall eq_refl) as (_ & _ & _ & Hcode & _).
  exact (conj Hcall (conj eq_refl Hcode)).
Defined.

(** ** The ways a restore ends *)

Lemma cleanup_events_pred (O : Oracle) (p : Event -> bool) (files : list string)
    (present : gset string) :
  (∀ path, p (EvExistsSync path) = false) →
  (∀ path, p (EvUnlinkSync path) = false) →
  (∀ path, p (EvLog (MsgDeleted path)) = false) →
  (∀ path err, p (EvError (MsgDeleteFailed path err)) = false) →
  ∀ e, e ∈ cleanup_events O files present → p e = false.
Proof.
  intros H1 H2 H3 H4. revert present.
  induction files as [|file rest IH]; intros present e; cbn.
  - by intros ?%elem_of_nil.
  - destruct (bool_decide _); [destruct (fs_unlink_error O file)|];
      rewrite ?elem_of_cons; intros H;
      repeat (destruct H as [->|H]; [done|]); by eapply IH.
Qed.

(** X12. A restore that reports its completion has done, in this order
    and nothing else: the listing, the choice among the records listed,
    the confirmation, the download of the chosen record by its identifier
    into a file of its name, the unpacking of that file, and the import of
    the path the unpacking returned.  The exit code is left as it was, and
    the archive and that path are handed to cleanup. *)
Theorem restore_completed_trace (O : Oracle) (cfg : Config) (st : State) :
  let mid := restore_mid O cfg st in
  let fin := runRestoreProcess O cfg st in
  EvLog MsgRestoreCompleted ∈ events_since st mid →
  ∃ first rest,
    let files := first :: rest in
    let chosen := nth (answer_list O files) files first in
    let zipFile := df_name chosen in
    let sqlFile := Js.replace ".zip" "" zipFile in
    drive_list O = Listed files ∧
    answer_confirm O zipFile = true ∧
    events_since st mid =
      [EvLog MsgListing; EvDriveList (listQuery cfg) "createdTime desc" 20;
       EvPromptList files; EvPromptConfirm zipFile (DB_NAME cfg) false;
       EvLog (MsgDownloading zipFile); EvCreateWriteStream zipFile;
       EvDriveGet (df_id chosen); EvLog MsgDownloadComplete;
       EvLog (MsgUnzipping zipFile); EvCreateReadStream zipFile;
       EvUnzipExtract zipFile "."; EvLog (MsgUnzipped sqlFile);
       EvLog (MsgRestoring sqlFile); EvExec (importCommand cfg sqlFile);
       EvLog MsgImported; EvLog MsgRestoreCompleted] ∧
    exitCode fin.2 = exitCode st ∧
    exists_checks (events_since mid fin.2) = List.filter Js.truthy [zipFile; sqlFile].
Proof.
  intros mid fin Hdone.
  assert ((restoreStages O cfg (restore_entry st)).1 = Returned tt) as Halive.
  { revert Hdone. subst mid fin. unfold_program. cbn -[Js.truthy nth].
    destruct (drive_list O) as [[|first rest]|err]; cbn -[Js.truthy nth]; try done.
    destruct (answer_confirm O _); cbn -[Js.truthy nth]; try done.
    simpl_locals. restore_cases O; try done.
    all: erewrite events_since_app by (cbn [trace]; rewrite <- ?app_assoc; reflexivity).
    all: intros H; mem_cases H. }
  destruct (runRestoreProcess_after_stages O cfg st Halive) as (_ & Hexit & _ & Hclean).
  fold mid fin in Hclean, Hexit. rewrite Hclean, Hexit. cbn [exists_checks].
  rewrite cleanup_events_exists_checks. clear Hclean Hexit Halive. revert Hdone.
  subst mid fin.
  unfold restore_registered. unfold_program. cbn -[Js.truthy nth].
  destruct (drive_list O) as [files|err]; cbn -[Js.truthy nth].
  2:{ erewrite events_since_app by (cbn [trace]; rewrite <- ?app_assoc; reflexivity).
      intros H. mem_cases H. }
  destruct files as [|first rest]; cbn -[Js.truthy nth].
  { erewrite events_since_app by (cbn [trace]; rewrite <- ?app_assoc; reflexivity).
    intros H. mem_cases H. }
  remember (nth (answer_list O (first :: rest)) (first :: rest) first) as chosen eqn:Hchosen.
  destruct (answer_confirm O (df_name chosen)) eqn:Hconfirm; cbn -[Js.truthy nth].
  2:{ erewrite events_since_app by (cbn [trace]; rewrite <- ?app_assoc; reflexivity).
      intros H. mem_cases H. }
  simpl_locals.
  restore_cases O.
  all: erewrite events_since_app by (cbn [trace]; rewrite <- ?app_assoc; reflexivity).
  all: intros H; mem_cases H.
  exists first, rest. subst chosen. simpl_locals.
  by split_and!.
Qed.

Lemma restore_completed_trace_witness :
  EvLog MsgRestoreCompleted ∈
    events_since (initial ∅) (restore_mid Scenarios.restore_ok Examples.cfg (initial ∅)) ∧
  exitCode (runRestoreProcess Scenarios.restore_ok Examples.cfg (initial ∅)).2 = None.
Proof.
  assert (EvLog MsgRestoreCompleted ∈
            events_since (initial ∅)
              (restore_mid Scenarios.restore_ok Examples.cfg (initial ∅))) as Hdone.
  { apply list_elem_of_In. vm_compute. repeat (first [left; reflexivity | right]). }
  destruct (restore_completed_trace Scenarios.restore_ok Examples.cfg (initial ∅) Hdone)
    as (first & rest & _ & _ & _ & Hcode & _).
  exact (conj Hdone Hcode).
Defined.

(** X13. When the listing is rejected, the restore fails with the message
    of the rejection and exit code 1 before anything is asked of the user:
    no prompt is shown, nothing is downloaded, and cleanup is given no
    path. *)
Theorem restore_listing_rejected (O : Oracle) (cfg : Config) (st : State) (err : string) :
  drive_list O = ListRejected err →
  let fin := runRestoreProcess O cfg st in
  fin.1 = Returned tt ∧
  events_since st fin.2 =
    [EvLog MsgListing; EvDriveList (listQuery cfg) "createdTime desc" 20;
     EvError (MsgRestoreFailed err); EvLog MsgCleaningUp] ∧
  exitCode fin.2 = Some 1 ∧
  exit_status fin = 1 ∧
  fs fin.2 = fs st.
Proof.
  intros Hlist fin. subst fin. rewrite runRestoreProcess_unfold.
  unfold after_cleanup, restore_registered. unfold_program. cbn. rewrite Hlist. cbn.
  simpl_locals. cbn.
  erewrite events_since_app by (cbn; rewrite <- !app_assoc; reflexivity).
  by repeat split.
Qed.

Lemma restore_listing_rejected_witness :
  drive_list Scenarios.listing_fails = ListRejected "invalid_grant" ∧
  exit_status (runRestoreProcess Scenarios.listing_fails Examples.cfg (initial ∅)) = 1.
Proof.
  destruct (restore_listing_rejected Scenarios.listing_fails Examples.cfg (initial ∅)
              "invalid_grant" eq_refl) as (_ & _ & _ & Hstatus & _).
  exact (conj eq_refl Hstatus).
Defined.

(** X14. A restore run downloads, unpacks or imports only after the
    listing gave at least one record and the user confirmed the restore of
    the record chosen: any call that opens a stream, asks Drive for a
    content, extracts an archive or runs a command comes in a run whose
    confirmation prompt, asked with a negative default, was answered
    yes. *)
Theorem restore_operations_need_confirmation (O : Oracle) (cfg : Config) (st : State)
    (e : Event) :
  is_restore_operation e = true →
  e ∈ events_since st (runRestoreProcess O cfg st).2 →
  ∃ first rest,
    let files := first :: rest in
    let chosen := nth (answer_list O files) files first in
    drive_list O = Listed files ∧
    answer_confirm O (df_name chosen) = true ∧
    EvPromptConfirm (df_name chosen) (DB_NAME cfg) false ∈
      events_since st (runRestoreProcess O cfg st).2.
Proof.
  intros Hop.
  destruct (runRestoreProcess_shape O cfg st) as (Hsplit & _ & _ & _ & _ & _ & _ & Hend).
  rewrite Hsplit. clear Hsplit.
  assert (e ∉ events_since (restore_mid O cfg st) (runRestoreProcess O cfg st).2) as Hnot.
  { destruct Hend as [(_ & _ & ->)|(dead & _ & _ & ->)]; [|by intros ?%elem_of_nil].
    intros [->|H]%elem_of_cons; [done|].
    apply (cleanup_events_pred O is_restore_operation) in H; [congruence|done..]. }
  clear Hend.
  rewrite elem_of_app. intros [Hin|Hin]; [|done]. clear Hnot. revert Hin.
  unfold_program. cbn -[Js.truthy nth].
  destruct (drive_list O) as [files|err] eqn:Hlist; cbn -[Js.truthy nth].
  2:{ erewrite events_since_app by (cbn [trace]; rewrite <- ?app_assoc; reflexivity).
      intros H. mem_cases H; subst e; done. }
  destruct files as [|first rest]; cbn -[Js.truthy nth].
  { erewrite events_since_app by (cbn [trace]; rewrite <- ?app_assoc; reflexivity).
    intros H. mem_cases H; subst e; done. }
  remember (nth (answer_list O (first :: rest)) (first :: rest) first) as chosen eqn:Hchosen.
  destruct (answer_confirm O (df_name chosen)) eqn:Hconfirm; cbn -[Js.truthy nth].
  2:{ erewrite events_since_app by (cbn [trace]; rewrite <- ?app_assoc; reflexivity).
      intros H. mem_cases H; subst e; done. }
  intros _. exists first, rest. cbn zeta. rewrite <- !Hchosen. clear Hchosen.
  split_and!; [done|done|]. apply elem_of_app. left.
  simpl_locals. restore_cases O.
  all: erewrite events_since_app by (cbn [trace]; rewrite <- ?app_assoc; reflexivity).
  all: set_solver.
Qed.

Lemma restore_operations_need_confirmation_witness :
  is_restore_operation
    (EvExec (importCommand Examples.cfg "backup-shop-2024-01-02T00-00-00-000Z.sql")) = true ∧
  EvExec (importCommand Examples.cfg "backup-shop-2024-01-02T00-00-00-000Z.sql") ∈
    events_since (initial ∅) (runRestoreProcess Scenarios.restore_ok Examples.cfg (initial ∅)).2 ∧
  ∃ first rest,
    drive_list Scenarios.restore_ok = Listed (first :: rest) ∧
    answer_confirm Scenarios.restore_ok
      (df_name (nth (answer_list Scenarios.restore_ok (first :: rest)) (first :: rest) first))
    = true ∧
    EvPromptConfirm
      (df_name (nth (answer_list Scenarios.restore_ok (first :: rest)) (first :: rest) first))
      (DB_NAME Examples.cfg) false ∈
      events_since (initial ∅)
        (runRestoreProcess Scenarios.restore_ok Examples.cfg (initial ∅)).2.
Proof.
  assert (EvExec (importCommand Examples.cfg "backup-shop-2024-01-02T00-00-00-000Z.sql") ∈
            events_since (initial ∅)
              (runRestoreProcess Scenarios.restore_ok Examples.cfg (initial ∅)).2) as Hin.
  { apply list_elem_of_In. vm_compute. repeat (first [left; reflexivity | right]). }
  exact (conj eq_refl (conj Hin
    (restore_operations_need_confirmation Scenarios.restore_ok Examples.cfg (initial ∅)
       (EvExec (importCommand Examples.cfg "backup-shop-2024-01-02T00-00-00-000Z.sql"))
       eq_refl Hin))).
Defined.

(** X15. A restore run leaves in place every file that was there before
    it and that it did not hand to cleanup, and a file that was there
    disappears only through a deletion attempted on it; cleanup is handed
    two paths at most. *)
Theorem restore_keeps_other_files (O : Oracle) (cfg : Config) (st : State) :
  let fin := runRestoreProcess O cfg st in
  (∀ q, q ∈ fs st → q ∉ exists_checks (events_since st fin.2) → q ∈ fs fin.2) ∧
  (∀ q, q ∈ fs st → q ∉ fs fin.2 → q ∈ unlink_attempts (events_since st fin.2)) ∧
  (length (exists_checks (events_since st fin.2)) <= 2)%nat.
Proof.
  intros fin.
  destruct (runRestoreProcess_shape O cfg st)
    as (Hsplit & _ & _ & Hu & He & _ & Hfs & Hend).
  fold fin in Hsplit, Hend. set (mid := restore_mid O cfg st) in *.
  rewrite Hsplit, exists_checks_app, unlink_attempts_app, He, Hu. cbn [app].
  destruct Hend as [(_ & -> & ->)|(dead & _ & -> & ->)].
  - cbn [after_cleanup fs exists_checks unlink_attempts].
    rewrite cleanup_events_exists_checks.
    split_and!.
    + intros q Hq Hnot. apply cleanup_fs_other; [done|set_solver].
    + intros q Hq Hgone. apply cleanup_fs_removed_by_unlink; [set_solver|done].
    + unfold restore_registered. etrans; [apply List.filter_length_le|]. done.
  - cbn [exists_checks unlink_attempts length].
    split_and!; [set_solver|set_solver|lia].
Qed.

(** X16. When the download of a confirmed restore fails, be it that Drive
    rejects the request or that the stream breaks, the restore fails with
    the message of that error and exit code 1 without unpacking or
    importing anything; a broken stream is reported by the download
    itself as well. *)
Theorem restore_download_failure (O : Oracle) (cfg : Config) (st : State)
    (first : DriveFile) (rest : list DriveFile) (err : string) :
  let files := first :: rest in
  let chosen := nth (answer_list O files) files first in
  let mid := restore_mid O cfg st in
  let fin := runRestoreProcess O cfg st in
  drive_list O = Listed files →
  answer_confirm O (df_name chosen) = true →
  drive_get O (df_id chosen) = GetRejected err ∨
  drive_get O (df_id chosen) = StreamError err →
  events_since st mid =
    [EvLog MsgListing; EvDriveList (listQuery cfg) "createdTime desc" 20;
     EvPromptList files; EvPromptConfirm (df_name chosen) (DB_NAME cfg) false;
     EvLog (MsgDownloading (df_name chosen)); EvCreateWriteStream (df_name chosen);
     EvDriveGet (df_id chosen)] ++
    match drive_get O (df_id chosen) with
    | StreamError _ => [EvError (MsgDownloadError err)]
    | _ => []
    end ++ [EvError (MsgRestoreFailed err)] ∧
  exitCode fin.2 = Some 1 ∧
  exists_checks (events_since mid fin.2) = List.filter Js.truthy [df_name chosen].
Proof.
  intros files chosen mid fin Hlist Hconfirm Hget.
  assert ((restoreStages O cfg (restore_entry st)).1 = Returned tt) as Halive.
  { clear mid fin. subst files.
    remember (nth (answer_list O (first :: rest)) (first :: rest) first) as picked
      eqn:Hpicked.
    subst chosen. unfold_program. cbn -[Js.truthy nth].
    rewrite Hlist. cbn -[Js.truthy nth]. rewrite <- !Hpicked, Hconfirm. clear Hpicked.
    cbn -[Js.truthy]. simpl_locals.
    destruct Hget as [Hget|Hget]; rewrite Hget; cbn -[Js.truthy]; [|done].
    by destruct (fs_open_late O _). }
  destruct (runRestoreProcess_after_stages O cfg st Halive) as (_ & Hexit & _ & Hclean).
  fold mid fin in Hclean, Hexit. rewrite Hclean, Hexit. cbn [exists_checks].
  rewrite cleanup_events_exists_checks. clear Hclean Hexit Halive. subst mid fin files.
  remember (nth (answer_list O (first :: rest)) (first :: rest) first) as picked eqn:Hpicked.
  subst chosen.
  unfold restore_registered. unfold_program. cbn -[Js.truthy nth].
  rewrite Hlist. cbn -[Js.truthy nth]. rewrite <- !Hpicked, Hconfirm. clear Hpicked.
  cbn -[Js.truthy]. simpl_locals.
  destruct Hget as [Hget|Hget]; rewrite Hget; cbn -[Js.truthy];
    [destruct (fs_open_late O _); cbn -[Js.truthy]|].
  all: erewrite events_since_app by (cbn [trace]; rewrite <- ?app_assoc; reflexivity).
  all: simpl_locals; cbn -[Js.truthy]; split_and!; try done.
  all: by destruct (Js.truthy (df_name picked)).
Qed.

Lemma restore_download_failure_witness :
  drive_list Examples.download_refused = Listed Examples.remote ∧
  answer_confirm Examples.download_refused Examples.second_name = true ∧
  (drive_get Examples.download_refused "id2" = GetRejected "ECONNRESET" ∨
   drive_get Examples.download_refused "id2" = StreamError "ECONNRESET") ∧
  exitCode (runRestoreProcess Examples.download_refused Examples.cfg (initial ∅)).2 = Some 1.
Proof.
  assert (drive_get Examples.download_refused "id2" = GetRejected "ECONNRESET" ∨
          drive_get Examples.download_refused "id2" = StreamError "ECONNRESET") as Hget
    by (left; reflexivity).
  destruct (restore_download_failure Examples.download_refused Examples.cfg (initial ∅)
              Scenarios.newest (tail Examples.remote) "ECONNRESET" eq_refl eq_refl Hget)
    as (_ & Hcode & _).
  exact (conj eq_refl (conj eq_refl (conj Hget Hcode))).
Defined.

(** ** The exit status of the program *)






(** ** Whole runs of the program *)

(** The menu is closed without an answer: the rejection reaches the
    handler of the last lines, which reports it and exits with code 1. *)
Example menu_closed_run :
  (main Scenarios.menu_closed Examples.penv (initial ∅)).1 = Exited 1 ∧
  trace (main Scenarios.menu_closed Examples.penv (initial ∅)).2 =
    [EvDotenvConfig; EvClear; EvLog MsgBannerRule; EvLog MsgBannerTitle;
     EvLog MsgBannerRule; EvPromptMenu menuChoices;
     EvError (MsgUnexpected "User force closed the prompt"); EvExit 1].
Proof. split; vm_compute; reflexivity. Qed.

(** The download is rejected while the open of its write stream is
    pending: the restore fails, [cleanup] finds nothing to delete, and the
    archive file is in the directory when the process ends. *)
Example rejected_at_once_run :
  (main Scenarios.rejected_at_once Examples.penv (initial ∅)).1 = Returned tt ∧
  exit_status (main Scenarios.rejected_at_once Examples.penv (initial ∅)) = 1 ∧
  unlink_attempts (trace (main Scenarios.rejected_at_once Examples.penv (initial ∅)).2) = [] ∧
  elements (fs (main Scenarios.rejected_at_once Examples.penv (initial ∅)).2) =
    [Examples.second_name].
Proof. split_and!; vm_compute; reflexivity. Qed.

(** The archive is truncated: the message of a successful unpacking is
    written all the same, after the failure and after [cleanup]. *)
Example truncated_archive_run :
  exit_status (main Examples.truncated_archive Examples.penv (initial ∅)) = 1 ∧
  drop 14 (trace (main Examples.truncated_archive Examples.penv (initial ∅)).2) =
    [EvLog (MsgUnzipping Examples.second_name); EvCreateReadStream Examples.second_name;
     EvUnzipExtract Examples.second_name ".";
     EvError (MsgUnzipFailed "FILE_ENDED"); EvError (MsgRestoreFailed "FILE_ENDED");
     EvLog MsgCleaningUp; EvExistsSync Examples.second_name;
     EvUnlinkSync Examples.second_name; EvLog (MsgDeleted Examples.second_name);
     EvLog (MsgUnzipped "backup-shop-2024-01-02T00-00-00-000Z.sql")].
Proof. split; vm_compute; reflexivity. Qed.

(** The directory does not let its files be removed: [cleanup] reports
    both failures and the backup still ends with status 0, its two files
    left in place. *)
Example unlink_fails_run :
  exit_status (main Scenarios.unlink_fails Examples.penv (initial ∅)) = 0 ∧
  List.filter (fun e => match e with EvError _ => true | _ => false end)
    (trace (main Scenarios.unlink_fails Examples.penv (initial ∅)).2) =
    [EvError (MsgDeleteFailed "backup-shop-2024-01-01T00-00-00-000Z.sql" "EPERM");
     EvError (MsgDeleteFailed "backup-shop-2024-01-01T00-00-00-000Z.sql.zip" "EPERM")] ∧
  size (fs (main Scenarios.unlink_fails Examples.penv (initial ∅)).2) = 2%nat.
Proof. split_and!; vm_compute; reflexivity. Qed.

(** An empty host is as good as none. *)
Example empty_host_rejected :
  loadConfig Scenarios.penv_empty_host =
  inl (Js.mkError "Missing required environment variable: DB_HOST").
Proof. vm_compute. reflexivity. Qed.
